(** * Hotel booking record stores (act-6.2): customers, hotels, reservations

    A shallow embedding of [customer.py], [hotel.py] and [reservation.py].
    Every operation of the three classes loads the whole JSON file, scans
    the list of records, and rewrites the whole file.  A file is modelled
    by what [os.path.exists], [open] and [json.load] do on it; an operation
    is a computation over the files that returns a value or raises, and
    leaves the files as the last [save_all] wrote them.

    Records are the flat objects that [to_dict] builds, with string ids,
    names and addresses and integer room counts; ids and names passed to
    the operations are strings.  The three paths name three different
    files, and writing a file succeeds. *)

From Stdlib Require Import ZArith List String Ascii Bool Lia.
Import ListNotations.

Open Scope string_scope.
Open Scope list_scope.
Open Scope Z_scope.

(** ** Python values, exceptions and the state of a file *)

(** The exceptions that [open(path, "r", encoding="utf-8")] and
    [json.load] raise on a path that exists: [IOError] when the path cannot
    be opened or read, [UnicodeDecodeError] when the bytes are not UTF-8,
    [JSONDecodeError] when the text is not a JSON document. *)
Inductive exn : Type :=
| JSONDecodeError
| IOError
| UnicodeDecodeError.

(** What a call evaluates to: a returned value or a raised exception. *)
Inductive result (A : Type) : Type :=
| Val (a : A)
| Exc (e : exn).
Arguments Val {A} a.
Arguments Exc {A} e.

(** A JSON file on disk, as the loader sees it: no such path, a path on
    which reading raises [e], or the JSON array that [save_all] wrote. *)
Inductive file (R : Type) : Type :=
| Missing
| Faulty (e : exn)
| Stored (records : list R).
Arguments Missing {R}.
Arguments Faulty {R} e.
Arguments Stored {R} records.

(** An argument passed where the code tests [isinstance(value, int)].
    Python's [True] and [False] are instances of [int] and stand here as
    [PyInt 1] and [PyInt 0]. *)
Inductive py_value : Type :=
| PyInt (z : Z)
| PyStr (s : string)
| PyNone.

(** [not s] on a string. *)
Definition falsy (s : string) : bool :=
  match s with
  | EmptyString => true
  | String _ _ => false
  end.

(** [c in s] for a one-character [c]. *)
Fixpoint contains (c : ascii) (s : string) : bool :=
  match s with
  | EmptyString => false
  | String a rest => if Ascii.eqb a c then true else contains c rest
  end.

(** ** Computations over files *)

(** A computation on a state [S]: it returns or raises, and hands on the
    state it has reached; a raised exception undoes no write. *)
Definition M (S A : Type) : Type := S -> result A * S.

Definition ret {S A : Type} (a : A) : M S A := fun s => (Val a, s).

Definition bind {S A B : Type} (m : M S A) (k : A -> M S B) : M S B :=
  fun s =>
    match m s with
    | (Val a, s') => k a s'
    | (Exc e, s') => (Exc e, s')
    end.

Notation "x <- c1 ;; c2" := (bind c1 (fun x => c2))
  (at level 61, c1 at next level, right associativity).
Notation "c1 ;; c2" := (bind c1 (fun _ => c2))
  (at level 61, right associativity).

(** Runs a computation of one store inside a larger state. *)
Definition zoom {W S A : Type} (get : W -> S) (set : S -> W -> W)
    (m : M S A) : M W A :=
  fun w => let (r, s') := m (get w) in (r, set s' w).

(** The [except (json.JSONDecodeError, IOError)] clause of [load_all]. *)
Definition caught (e : exn) : bool :=
  match e with
  | JSONDecodeError => true
  | IOError => true
  | UnicodeDecodeError => false
  end.

(** The body shared by the three [load_all]: [[]] when the path does not
    exist or a listed exception is caught, else what [json.load] gives. *)
Definition load_json {R : Type} : M (file R) (list R) :=
  fun f =>
    match f with
    | Missing => (Val [], f)
    | Faulty e => if caught e then (Val [], f) else (Exc e, f)
    | Stored records => (Val records, f)
    end.

(** The body shared by the three [save_all]: the file is rewritten and
    holds the given records from then on. *)
Definition save_json {R : Type} (records : list R) : M (file R) unit :=
  fun _ => (Val tt, Stored records).

(** The loop [for record in records: if <match>: <body>] of the modify,
    reserve and cancel operations.  The body runs on the first matching
    record only: it either returns [False] without saving ([Rejected]) or
    mutates that record in place ([Updated]). *)
Inductive scan (R : Type) : Type :=
| NotFound
| Rejected
| Updated (records : list R).
Arguments NotFound {R}.
Arguments Rejected {R}.
Arguments Updated {R} records.

Fixpoint for_first {R : Type} (matches : R -> bool) (body : R -> option R)
    (records : list R) : scan R :=
  match records with
  | [] => NotFound
  | record :: rest =>
      if matches record then
        match body record with
        | None => Rejected
        | Some record' => Updated (record' :: rest)
        end
      else
        match for_first matches body rest with
        | Updated rest' => Updated (record :: rest')
        | NotFound => NotFound
        | Rejected => Rejected
        end
  end.

(** ** Python dicts *)

(** A dict with string keys, as [json.load] builds one from an object and
    as [to_dict] writes one: the bindings in insertion order. *)
Definition dict : Type := list (string * py_value).

(** [data[key]]; [None] stands for the [KeyError] of a missing key. *)
Fixpoint getitem (key : string) (data : dict) : option py_value :=
  match data with
  | [] => None
  | (k, v) :: rest => if String.eqb k key then Some v else getitem key rest
  end.

(** [data.get(key, default)]. *)
Definition get_default (key : string) (default : py_value) (data : dict)
    : py_value :=
  match getitem key data with
  | Some v => v
  | None => default
  end.

(** ** customer.py *)

Module Customer.

Record record : Type := {
  customer_id : string;
  name : string;
  email : string
}.

(** [**kwargs] of [modify_customer]; [kw_other] holds every keyword
    other than [name] and [email]. *)
Record kwargs : Type := {
  kw_name : option string;
  kw_email : option string;
  kw_other : list (string * py_value)
}.

Definition load_all : M (file record) (list record) := load_json.
Definition save_all (records : list record) : M (file record) unit :=
  save_json records.

Definition _validate_email (email : string) : bool :=
  if falsy email || negb (contains "@"%char email) then false else true.

Definition has_id (customer_id0 : string) (r : record) : bool :=
  String.eqb (customer_id r) customer_id0.

Definition create_customer (customer_id0 name0 email0 : string)
    : M (file record) (option record) :=
  if falsy customer_id0 || falsy name0 then ret None
  else if negb (_validate_email email0) then ret None
  else
    records <- load_all ;;
    if existsb (has_id customer_id0) records then ret None
    else
      let customer :=
        {| customer_id := customer_id0; name := name0; email := email0 |} in
      save_all (records ++ [customer]) ;;
      ret (Some customer).

Definition delete_customer (customer_id0 : string)
    : M (file record) bool :=
  records <- load_all ;;
  let original_len := List.length records in
  let records' := filter (fun r => negb (has_id customer_id0 r)) records in
  if Nat.eqb (List.length records') original_len then ret false
  else save_all records' ;; ret true.

Definition display_customer (customer_id0 : string)
    : M (file record) (option record) :=
  records <- load_all ;;
  ret (find (has_id customer_id0) records).

(** [for key in ("name", "email"): if key in kwargs: record[key] = ...] *)
Definition assign (kw : kwargs) (r : record) : record :=
  {| customer_id := customer_id r;
     name := match kw_name kw with Some v => v | None => name r end;
     email := match kw_email kw with Some v => v | None => email r end |}.

Definition modify_body (kw : kwargs) (r : record) : option record :=
  match kw_email kw with
  | Some e => if negb (_validate_email e) then None else Some (assign kw r)
  | None => Some (assign kw r)
  end.

Definition modify_customer (customer_id0 : string) (kw : kwargs)
    : M (file record) bool :=
  records <- load_all ;;
  match for_first (has_id customer_id0) (modify_body kw) records with
  | Updated records' => save_all records' ;; ret true
  | Rejected => ret false
  | NotFound => ret false
  end.

(** An instance of the class: its three attributes, of any value. *)
Record instance : Type := {
  self_customer_id : py_value;
  self_name : py_value;
  self_email : py_value
}.

Definition __init__ (customer_id0 name0 email0 : py_value) : instance :=
  {| self_customer_id := customer_id0; self_name := name0;
     self_email := email0 |}.

Definition to_dict (self : instance) : dict :=
  [("customer_id", self_customer_id self);
   ("name", self_name self);
   ("email", self_email self)].

Definition from_dict (data : dict) : option instance :=
  match getitem "customer_id" data, getitem "name" data,
        getitem "email" data with
  | Some i, Some n, Some e => Some (__init__ i n e)
  | _, _, _ => None
  end.

End Customer.

(** ** hotel.py *)

Module Hotel.

Record record : Type := {
  hotel_id : string;
  name : string;
  location : string;
  rooms : Z;
  rooms_available : Z
}.

(** [**kwargs] of [modify_hotel]; [kw_other] holds every keyword other
    than [name], [location] and [rooms]. *)
Record kwargs : Type := {
  kw_name : option string;
  kw_location : option string;
  kw_rooms : option py_value;
  kw_other : list (string * py_value)
}.

Definition load_all : M (file record) (list record) := load_json.
Definition save_all (records : list record) : M (file record) unit :=
  save_json records.

Definition has_id (hotel_id0 : string) (r : record) : bool :=
  String.eqb (hotel_id r) hotel_id0.

(** [not isinstance(value, int) or value <= 0] gives [False]. *)
Definition _validate_rooms (value : py_value) : bool :=
  match value with
  | PyInt z => if z <=? 0 then false else true
  | _ => false
  end.

Definition create_hotel (hotel_id0 name0 location0 : string)
    (rooms0 : py_value) : M (file record) (option record) :=
  if falsy hotel_id0 || falsy name0 then ret None
  else
    match rooms0 with
    | PyInt n =>
        if n <=? 0 then ret None
        else
          records <- load_all ;;
          if existsb (has_id hotel_id0) records then ret None
          else
            let hotel :=
              {| hotel_id := hotel_id0; name := name0;
                 location := location0; rooms := n;
                 rooms_available := n |} in
            save_all (records ++ [hotel]) ;;
            ret (Some hotel)
    | _ => ret None
    end.

Definition delete_hotel (hotel_id0 : string) : M (file record) bool :=
  records <- load_all ;;
  let original_len := List.length records in
  let records' := filter (fun r => negb (has_id hotel_id0 r)) records in
  if Nat.eqb (List.length records') original_len then ret false
  else save_all records' ;; ret true.

Definition display_hotel (hotel_id0 : string)
    : M (file record) (option record) :=
  records <- load_all ;;
  ret (find (has_id hotel_id0) records).

(** [for key in ("name", "location", "rooms"): if key in kwargs: ...];
    [new_rooms] is [kwargs["rooms"]] once it has passed validation. *)
Definition assign (kw : kwargs) (new_rooms : option Z) (r : record)
    : record :=
  {| hotel_id := hotel_id r;
     name := match kw_name kw with Some v => v | None => name r end;
     location :=
       match kw_location kw with Some v => v | None => location r end;
     rooms := match new_rooms with Some n => n | None => rooms r end;
     rooms_available := rooms_available r |}.

Definition set_available (n : Z) (r : record) : record :=
  {| hotel_id := hotel_id r; name := name r; location := location r;
     rooms := rooms r; rooms_available := n |}.

Definition modify_body (kw : kwargs) (r : record) : option record :=
  match kw_rooms kw with
  | Some value =>
      if negb (_validate_rooms value) then None
      else
        match value with
        | PyInt n =>
            let diff := n - rooms r in
            Some (assign kw (Some n)
                    (set_available (Z.max 0 (rooms_available r + diff)) r))
        | _ => None
        end
  | None => Some (assign kw None r)
  end.

Definition modify_hotel (hotel_id0 : string) (kw : kwargs)
    : M (file record) bool :=
  records <- load_all ;;
  match for_first (has_id hotel_id0) (modify_body kw) records with
  | Updated records' => save_all records' ;; ret true
  | Rejected => ret false
  | NotFound => ret false
  end.

Definition reserve_body (r : record) : option record :=
  if rooms_available r <=? 0 then None
  else Some (set_available (rooms_available r - 1) r).

Definition reserve_room (hotel_id0 : string) : M (file record) bool :=
  records <- load_all ;;
  match for_first (has_id hotel_id0) reserve_body records with
  | Updated records' => save_all records' ;; ret true
  | Rejected => ret false
  | NotFound => ret false
  end.

Definition cancel_body (r : record) : option record :=
  if rooms r <=? rooms_available r then None
  else Some (set_available (rooms_available r + 1) r).

Definition cancel_reservation (hotel_id0 : string)
    : M (file record) bool :=
  records <- load_all ;;
  match for_first (has_id hotel_id0) cancel_body records with
  | Updated records' => save_all records' ;; ret true
  | Rejected => ret false
  | NotFound => ret false
  end.

(** An instance of the class: its five attributes, of any value. *)
Record instance : Type := {
  self_hotel_id : py_value;
  self_name : py_value;
  self_location : py_value;
  self_rooms : py_value;
  self_rooms_available : py_value
}.

Definition __init__ (hotel_id0 name0 location0 rooms0 : py_value)
    : instance :=
  {| self_hotel_id := hotel_id0; self_name := name0;
     self_location := location0; self_rooms := rooms0;
     self_rooms_available := rooms0 |}.

Definition to_dict (self : instance) : dict :=
  [("hotel_id", self_hotel_id self);
   ("name", self_name self);
   ("location", self_location self);
   ("rooms", self_rooms self);
   ("rooms_available", self_rooms_available self)].

(** [hotel.rooms_available = value]. *)
Definition set_rooms_available (value : py_value) (hotel : instance)
    : instance :=
  {| self_hotel_id := self_hotel_id hotel; self_name := self_name hotel;
     self_location := self_location hotel; self_rooms := self_rooms hotel;
     self_rooms_available := value |}.

Definition from_dict (data : dict) : option instance :=
  match getitem "hotel_id" data, getitem "name" data,
        getitem "location" data, getitem "rooms" data with
  | Some i, Some n, Some l, Some r =>
      let hotel := __init__ i n l r in
      Some (set_rooms_available (get_default "rooms_available" r data) hotel)
  | _, _, _, _ => None
  end.

End Hotel.

(** ** reservation.py *)

Module Reservation.

Record record : Type := {
  reservation_id : string;
  customer_id : string;
  hotel_id : string
}.

(** The three files an operation of [Reservation] works on:
    [file_path], [hotel_file] and [customer_file]. *)
Record World : Type := {
  file_path : file record;
  hotel_file : file Hotel.record;
  customer_file : file Customer.record
}.

Definition set_file_path (f : file record) (w : World) : World :=
  {| file_path := f; hotel_file := hotel_file w;
     customer_file := customer_file w |}.

Definition set_hotel_file (f : file Hotel.record) (w : World) : World :=
  {| file_path := file_path w; hotel_file := f;
     customer_file := customer_file w |}.

Definition set_customer_file (f : file Customer.record) (w : World)
    : World :=
  {| file_path := file_path w; hotel_file := hotel_file w;
     customer_file := f |}.

Definition load_all : M (file record) (list record) := load_json.
Definition save_all (records : list record) : M (file record) unit :=
  save_json records.

Definition has_id (reservation_id0 : string) (r : record) : bool :=
  String.eqb (reservation_id r) reservation_id0.

Definition create_reservation (reservation_id0 customer_id0 hotel_id0 : string)
    : M World (option record) :=
  if falsy reservation_id0 then ret None
  else
    records <- zoom file_path set_file_path load_all ;;
    if existsb (has_id reservation_id0) records then ret None
    else
      customers <- zoom customer_file set_customer_file Customer.load_all ;;
      if negb (existsb (Customer.has_id customer_id0) customers)
      then ret None
      else
        hotels <- zoom hotel_file set_hotel_file Hotel.load_all ;;
        if negb (existsb (Hotel.has_id hotel_id0) hotels) then ret None
        else
          reserved <- zoom hotel_file set_hotel_file
                        (Hotel.reserve_room hotel_id0) ;;
          if negb reserved then ret None
          else
            let reservation :=
              {| reservation_id := reservation_id0;
                 customer_id := customer_id0;
                 hotel_id := hotel_id0 |} in
            zoom file_path set_file_path
              (save_all (records ++ [reservation])) ;;
            ret (Some reservation).

(** The result of [Hotel.cancel_reservation] is dropped; an exception
    it raises is not. *)
Definition cancel_reservation (reservation_id0 : string) : M World bool :=
  records <- zoom file_path set_file_path load_all ;;
  match find (has_id reservation_id0) records with
  | None => ret false
  | Some target =>
      zoom hotel_file set_hotel_file
        (Hotel.cancel_reservation (hotel_id target)) ;;
      let records' :=
        filter (fun r => negb (has_id reservation_id0 r)) records in
      zoom file_path set_file_path (save_all records') ;;
      ret true
  end.

(** An instance of the class: its three attributes, of any value. *)
Record instance : Type := {
  self_reservation_id : py_value;
  self_customer_id : py_value;
  self_hotel_id : py_value
}.

Definition __init__ (reservation_id0 customer_id0 hotel_id0 : py_value)
    : instance :=
  {| self_reservation_id := reservation_id0;
     self_customer_id := customer_id0; self_hotel_id := hotel_id0 |}.

Definition to_dict (self : instance) : dict :=
  [("reservation_id", self_reservation_id self);
   ("customer_id", self_customer_id self);
   ("hotel_id", self_hotel_id self)].

Definition from_dict (data : dict) : option instance :=
  match getitem "reservation_id" data, getitem "customer_id" data,
        getitem "hotel_id" data with
  | Some i, Some c, Some h => Some (__init__ i c h)
  | _, _, _ => None
  end.

End Reservation.

(** ** Vocabulary of the statements *)

(** The records a store holds, when its file can be loaded. *)
Definition loads {R : Type} (f : file R) (records : list R) : Prop :=
  fst (load_json f) = Val records.

(** The record an operation on [id] acts on: the first one that matches. *)
Definition lookup {R : Type} (matches : R -> bool) (records : list R)
    : option R :=
  find matches records.

(** The data-model invariant of a hotel record. *)
Definition hotel_ok (r : Hotel.record) : Prop :=
  0 <= Hotel.rooms_available r <= Hotel.rooms r.

(** Every record a hotel file holds satisfies the invariant. *)
Definition store_ok (f : file Hotel.record) : Prop :=
  forall records, f = Stored records -> Forall hotel_ok records.

(** The calls of the Hotel store that write its file. *)
Inductive hotel_call : Type :=
| CreateHotel (hotel_id name location : string) (rooms : py_value)
| ModifyHotel (hotel_id : string) (kw : Hotel.kwargs)
| ReserveRoom (hotel_id : string)
| CancelReservation (hotel_id : string)
| DeleteHotel (hotel_id : string).

(** The hotel file after a call. *)
Definition after (c : hotel_call) (f : file Hotel.record)
    : file Hotel.record :=
  match c with
  | CreateHotel i n l r => snd (Hotel.create_hotel i n l r f)
  | ModifyHotel i kw => snd (Hotel.modify_hotel i kw f)
  | ReserveRoom i => snd (Hotel.reserve_room i f)
  | CancelReservation i => snd (Hotel.cancel_reservation i f)
  | DeleteHotel i => snd (Hotel.delete_hotel i f)
  end.

(** The create calls of the three stores, each on its own file. *)
Inductive create_call : Type :=
| CreateCustomerCall (customer_id name email : string)
| CreateHotelCall (hotel_id name location : string) (rooms : py_value)
| CreateReservationCall (reservation_id customer_id hotel_id : string).

(** The id a create call is given is already in the store it writes. *)
Definition id_present (c : create_call) (w : Reservation.World) : Prop :=
  match c with
  | CreateCustomerCall i _ _ =>
      exists records, loads (Reservation.customer_file w) records
                      /\ existsb (Customer.has_id i) records = true
  | CreateHotelCall i _ _ _ =>
      exists records, loads (Reservation.hotel_file w) records
                      /\ existsb (Hotel.has_id i) records = true
  | CreateReservationCall i _ _ =>
      exists records, loads (Reservation.file_path w) records
                      /\ existsb (Reservation.has_id i) records = true
  end.

(** Whether a create call returned an instance ([true]) or [None]. *)
Definition created {A : Type} (r : result (option A)) : result bool :=
  match r with
  | Val (Some _) => Val true
  | Val None => Val false
  | Exc e => Exc e
  end.

Definition run_create (c : create_call) : M Reservation.World bool :=
  fun w =>
    match c with
    | CreateCustomerCall i n e =>
        let (r, w') :=
          zoom Reservation.customer_file Reservation.set_customer_file
            (Customer.create_customer i n e) w in
        (created r, w')
    | CreateHotelCall i n l k =>
        let (r, w') :=
          zoom Reservation.hotel_file Reservation.set_hotel_file
            (Hotel.create_hotel i n l k) w in
        (created r, w')
    | CreateReservationCall i c h =>
        let (r, w') := Reservation.create_reservation i c h w in
        (created r, w')
    end.

(** The shape shared by the modify, reserve and cancel operations: load,
    run the loop, save when a record was updated. *)
Definition scan_and_save {R : Type} (matches : R -> bool)
    (body : R -> option R) : M (file R) bool :=
  records <- load_json ;;
  match for_first matches body records with
  | Updated records' => save_json records' ;; ret true
  | Rejected => ret false
  | NotFound => ret false
  end.


(** The same conditions with the guard of [reserve_room] as the code has
    it: the referenced hotel has [rooms_available <= 0]. *)
Definition create_rejects (reservation_id customer_id hotel_id : string)
    (records : list Reservation.record) (customers : list Customer.record)
    (hotels : list Hotel.record) : Prop :=
  reservation_id = ""
  \/ existsb (Reservation.has_id reservation_id) records = true
  \/ existsb (Customer.has_id customer_id) customers = false
  \/ existsb (Hotel.has_id hotel_id) hotels = false
  \/ (exists h, lookup (Hotel.has_id hotel_id) hotels = Some h
                /\ Hotel.rooms_available h <= 0).

(** The records left once those with the given reservation id are gone. *)
Definition without (reservation_id : string)
    (records : list Reservation.record) : list Reservation.record :=
  filter (fun r => negb (Reservation.has_id reservation_id r)) records.


(** ** Vocabulary of the further properties *)

(** The calls of the Customer store that write its file. *)
Inductive customer_call : Type :=
| CreateCustomer (customer_id name email : string)
| ModifyCustomer (customer_id : string) (kw : Customer.kwargs)
| DeleteCustomer (customer_id : string).

(** The customer file after a call. *)
Definition after_customer (c : customer_call) (f : file Customer.record)
    : file Customer.record :=
  match c with
  | CreateCustomer i n e => snd (Customer.create_customer i n e f)
  | ModifyCustomer i kw => snd (Customer.modify_customer i kw f)
  | DeleteCustomer i => snd (Customer.delete_customer i f)
  end.

(** The calls of the Reservation store that write files. *)
Inductive reservation_call : Type :=
| CreateReservation (reservation_id customer_id hotel_id : string)
| CancelReservationOf (reservation_id : string).

(** What a call of the Reservation store raised, if it did, and the files
    after it. *)
Definition run_reservation (c : reservation_call) (w : Reservation.World)
    : option exn * Reservation.World :=
  match c with
  | CreateReservation i cu h =>
      let (r, w') := Reservation.create_reservation i cu h w in
      (match r with Exc e => Some e | Val _ => None end, w')
  | CancelReservationOf i =>
      let (r, w') := Reservation.cancel_reservation i w in
      (match r with Exc e => Some e | Val _ => None end, w')
  end.

Definition after_reservation (c : reservation_call)
    (w : Reservation.World) : Reservation.World :=
  snd (run_reservation c w).

(** No two records of the file have the same key. *)
Definition unique {R : Type} (key : R -> string) (f : file R) : Prop :=
  forall records, f = Stored records -> NoDup (map key records).

(** The rooms of a hotel record that are taken. *)
Definition occupied (r : Hotel.record) : Z :=
  Hotel.rooms r - Hotel.rooms_available r.

(** The hotel file after [n] calls of [reserve_room] in a row. *)
Fixpoint reserve_times (n : nat) (hotel_id : string)
    (f : file Hotel.record) : file Hotel.record :=
  match n with
  | O => f
  | S k => reserve_times k hotel_id (snd (Hotel.reserve_room hotel_id f))
  end.

(** The reservations on file for a hotel id. *)
Definition booked (hotel_id : string) (records : list Reservation.record)
    : nat :=
  List.length
    (filter (fun r => String.eqb (Reservation.hotel_id r) hotel_id) records).

(** Every hotel on file has at least as many rooms taken as there are
    reservations on file for it. *)
Definition booking_ok (w : Reservation.World) : Prop :=
  forall records hotels hotel_id h,
    loads (Reservation.file_path w) records ->
    loads (Reservation.hotel_file w) hotels ->
    lookup (Hotel.has_id hotel_id) hotels = Some h ->
    Z.of_nat (booked hotel_id records) <= occupied h.

(** ** Runs on concrete files *)

Definition grand : Hotel.record :=
  {| Hotel.hotel_id := "H1"; Hotel.name := "Grand";
     Hotel.location := "CDMX"; Hotel.rooms := 2;
     Hotel.rooms_available := 2 |}.

Definition ana : Customer.record :=
  {| Customer.customer_id := "C1"; Customer.name := "Ana";
     Customer.email := "ana@mail.com" |}.

Definition r1 : Reservation.record :=
  {| Reservation.reservation_id := "R1"; Reservation.customer_id := "C1";
     Reservation.hotel_id := "H1" |}.

(** The files of the reservation tests after their set-up, with [R1]
    recorded although no room of [H1] is taken. *)
Definition full_house : Reservation.World :=
  {| Reservation.file_path := Stored [r1];
     Reservation.hotel_file := Stored [grand];
     Reservation.customer_file := Stored [ana] |}.

Example create_hotel_on_empty_file :
  Hotel.create_hotel "H1" "Grand" "CDMX" (PyInt 2) (Faulty JSONDecodeError)
  = (Val (Some grand), Stored [grand]).
Proof. reflexivity. Qed.

Example create_hotel_string_rooms :
  Hotel.create_hotel "H1" "Grand" "CDMX" (PyStr "ten") Missing
  = (Val None, Missing).
Proof. reflexivity. Qed.

Example reserve_twice_then_fail :
  let f0 := Stored [grand] in
  let f1 := snd (Hotel.reserve_room "H1" f0) in
  let f2 := snd (Hotel.reserve_room "H1" f1) in
  f1 = Stored [Hotel.set_available 1 grand]
  /\ f2 = Stored [Hotel.set_available 0 grand]
  /\ Hotel.reserve_room "H1" f2 = (Val false, f2).
Proof. repeat split. Qed.

Example modify_rooms_after_one_reservation :
  Hotel.modify_hotel "H1"
    {| Hotel.kw_name := None; Hotel.kw_location := None;
       Hotel.kw_rooms := Some (PyInt 20); Hotel.kw_other := [] |}
    (Stored [Hotel.set_available 9
               {| Hotel.hotel_id := "H1"; Hotel.name := "Grand";
                  Hotel.location := "CDMX"; Hotel.rooms := 10;
                  Hotel.rooms_available := 10 |}])
  = (Val true,
     Stored [{| Hotel.hotel_id := "H1"; Hotel.name := "Grand";
                Hotel.location := "CDMX"; Hotel.rooms := 20;
                Hotel.rooms_available := 19 |}]).
Proof. reflexivity. Qed.

Example modify_email_without_at :
  Customer.modify_customer "C1"
    {| Customer.kw_name := Some "Ana M"; Customer.kw_email := Some "nomail";
       Customer.kw_other := [] |} (Stored [ana])
  = (Val false, Stored [ana]).
Proof. reflexivity. Qed.

Example cancel_on_full_house :
  Reservation.cancel_reservation "R1" full_house
  = (Val true, Reservation.set_file_path (Stored []) full_house).
Proof. reflexivity. Qed.

(** ** The loader and the scan loop *)

Lemma load_json_keeps {R : Type} (f : file R) : snd (load_json f) = f.
Proof. destruct f as [| e |l]; simpl; try destruct (caught e); reflexivity. Qed.

Lemma loads_run {R : Type} (f : file R) (records : list R) :
  loads f records -> load_json f = (Val records, f).
Proof.
  unfold loads. intros H.
  rewrite (surjective_pairing (load_json f)), H, load_json_keeps.
  reflexivity.
Qed.

Lemma loads_stored {R : Type} (f : file R) (r : R) (records : list R) :
  loads f (r :: records) -> f = Stored (r :: records).
Proof.
  unfold loads. destruct f as [| e |l]; simpl.
  - discriminate.
  - destruct (caught e); discriminate.
  - intros H. injection H as ->. reflexivity.
Qed.

Lemma loads_of_stored {R : Type} (records : list R) :
  loads (Stored records) records.
Proof. reflexivity. Qed.

Lemma loads_raises {R : Type} (f : file R) (e : exn) :
  fst (load_json f) = Exc e -> load_json f = (Exc e, f).
Proof.
  intros H.
  rewrite (surjective_pairing (load_json f)), H, load_json_keeps.
  reflexivity.
Qed.

Lemma load_json_cases {R : Type} (f : file R) :
  (exists records, loads f records) \/ (exists e, load_json f = (Exc e, f)).
Proof.
  destruct (fst (load_json f)) as [l|e] eqn:E.
  - left. exists l. exact E.
  - right. exists e. apply loads_raises, E.
Qed.

Lemma find_none_existsb {R : Type} (p : R -> bool) (l : list R) :
  find p l = None <-> existsb p l = false.
Proof.
  induction l as [|x l IH]; simpl.
  - tauto.
  - destruct (p x); simpl; [split; discriminate | exact IH].
Qed.

Lemma existsb_find {R : Type} (p : R -> bool) (l : list R) :
  existsb p l = true -> exists r, find p l = Some r.
Proof.
  intros H. destruct (find p l) as [r|] eqn:E; [now exists r|].
  apply find_none_existsb in E. congruence.
Qed.

(** The first match splits the list: nothing before it matches. *)
Lemma find_split {R : Type} (p : R -> bool) (l : list R) (r : R) :
  find p l = Some r ->
  exists pre post,
    l = pre ++ r :: post /\ existsb p pre = false /\ p r = true.
Proof.
  induction l as [|x l IH]; simpl; [discriminate|].
  destruct (p x) eqn:Px.
  - intros H. injection H as ->. exists [], l. auto.
  - intros H. destruct (IH H) as (pre & post & -> & Hpre & Hr).
    exists (x :: pre), post. simpl. rewrite Px. auto.
Qed.

Lemma for_first_at {R : Type} (p : R -> bool) (body : R -> option R)
    (pre post : list R) (r : R) :
  existsb p pre = false -> p r = true ->
  for_first p body (pre ++ r :: post)
  = match body r with
    | None => Rejected
    | Some r' => Updated (pre ++ r' :: post)
    end.
Proof.
  intros Hpre Hr. induction pre as [|x pre IH]; simpl.
  - rewrite Hr. reflexivity.
  - simpl in Hpre. apply orb_false_iff in Hpre as [Hx Hpre].
    rewrite Hx, (IH Hpre). destruct (body r); reflexivity.
Qed.

Lemma for_first_not_found {R : Type} (p : R -> bool) (body : R -> option R)
    (l : list R) :
  existsb p l = false -> for_first p body l = NotFound.
Proof.
  induction l as [|x l IH]; simpl; [reflexivity|].
  intros H. apply orb_false_iff in H as [Hx Hl].
  rewrite Hx, (IH Hl). reflexivity.
Qed.

(** A body that keeps a property of records keeps it on the whole list. *)
Lemma for_first_Forall {R : Type} (P : R -> Prop) (p : R -> bool)
    (body : R -> option R) (l l' : list R) :
  (forall r r', P r -> body r = Some r' -> P r') ->
  Forall P l -> for_first p body l = Updated l' -> Forall P l'.
Proof.
  intros Hbody. revert l'.
  induction l as [|x l IH]; simpl; intros l' Hl H; [discriminate|].
  inversion Hl as [|? ? Hx Hl']; subst.
  destruct (p x).
  - destruct (body x) as [x'|] eqn:Bx; [|discriminate].
    injection H as <-. constructor; eauto.
  - destruct (for_first p body l) as [| |m]; try discriminate.
    injection H as <-. constructor; auto.
Qed.

(** ** How each operation runs on a loaded file *)

Section ScanOperations.

Context {R : Type}.
Variables (matches : R -> bool) (body : R -> option R).

Lemma scan_and_save_run (f : file R) (records : list R) :
  loads f records ->
  scan_and_save matches body f
  = match for_first matches body records with
    | Updated records' => (Val true, Stored records')
    | _ => (Val false, f)
    end.
Proof.
  intros H. unfold scan_and_save, bind. rewrite (loads_run _ _ H).
  destruct (for_first matches body records); reflexivity.
Qed.

Lemma scan_and_save_raises (f : file R) (e : exn) :
  load_json f = (Exc e, f) -> scan_and_save matches body f = (Exc e, f).
Proof. intros H. unfold scan_and_save, bind. rewrite H. reflexivity. Qed.

End ScanOperations.

Lemma modify_hotel_scan (i : string) (kw : Hotel.kwargs) :
  Hotel.modify_hotel i kw
  = scan_and_save (Hotel.has_id i) (Hotel.modify_body kw).
Proof. reflexivity. Qed.

Lemma reserve_room_scan (i : string) :
  Hotel.reserve_room i = scan_and_save (Hotel.has_id i) Hotel.reserve_body.
Proof. reflexivity. Qed.

Lemma hotel_cancel_scan (i : string) :
  Hotel.cancel_reservation i
  = scan_and_save (Hotel.has_id i) Hotel.cancel_body.
Proof. reflexivity. Qed.

Lemma modify_customer_scan (i : string) (kw : Customer.kwargs) :
  Customer.modify_customer i kw
  = scan_and_save (Customer.has_id i) (Customer.modify_body kw).
Proof. reflexivity. Qed.

(** ** Loading *)

(** A file that is missing, cannot be opened, or holds text that is not
    JSON loads as the empty list, and the file is left as it is. *)
Lemma load_all_degrades {R : Type} (f : file R) :
  f = Missing \/ f = Faulty JSONDecodeError \/ f = Faulty IOError ->
  load_json f = (Val [], f).
Proof. intros [-> | [-> | ->]]; reflexivity. Qed.

(** C8, at the input where the code departs from it: on a file that exists
    and whose bytes are not UTF-8, [load_all] of each of the three stores
    raises [UnicodeDecodeError] to its caller instead of returning the
    empty list; the [except] clause lists [JSONDecodeError] and [IOError]
    only. *)
Theorem load_all_undecodable_raises :
  Customer.load_all (Faulty UnicodeDecodeError)
  = (Exc UnicodeDecodeError, Faulty UnicodeDecodeError)
  /\ Hotel.load_all (Faulty UnicodeDecodeError)
     = (Exc UnicodeDecodeError, Faulty UnicodeDecodeError)
  /\ Reservation.load_all (Faulty UnicodeDecodeError)
     = (Exc UnicodeDecodeError, Faulty UnicodeDecodeError).
Proof. repeat split. Qed.

(** ** The Hotel store *)

Lemma store_ok_loads (f : file Hotel.record) (records : list Hotel.record) :
  store_ok f -> loads f records -> Forall hotel_ok records.
Proof.
  intros Hok Hl. destruct records as [|r records]; [constructor|].
  apply Hok, (loads_stored _ _ _ Hl).
Qed.

Lemma store_ok_stored (records : list Hotel.record) :
  Forall hotel_ok records -> store_ok (Stored records).
Proof. intros H l E. injection E as <-. exact H. Qed.

Lemma create_hotel_run (i n loc : string) (k : py_value)
    (f : file Hotel.record) (records : list Hotel.record) :
  loads f records ->
  Hotel.create_hotel i n loc k f
  = if falsy i || falsy n then (Val None, f)
    else match k with
         | PyInt z =>
             if z <=? 0 then (Val None, f)
             else if existsb (Hotel.has_id i) records then (Val None, f)
             else
               let hotel :=
                 {| Hotel.hotel_id := i; Hotel.name := n;
                    Hotel.location := loc; Hotel.rooms := z;
                    Hotel.rooms_available := z |} in
               (Val (Some hotel), Stored (records ++ [hotel]))
         | _ => (Val None, f)
         end.
Proof.
  intros H. unfold Hotel.create_hotel.
  destruct (falsy i || falsy n); [reflexivity|].
  destruct k as [z| |]; try reflexivity.
  destruct (z <=? 0); [reflexivity|].
  unfold bind, Hotel.load_all. rewrite (loads_run _ _ H).
  destruct (existsb (Hotel.has_id i) records); reflexivity.
Qed.

Lemma create_hotel_raises (i n loc : string) (k : py_value)
    (f : file Hotel.record) (e : exn) :
  load_json f = (Exc e, f) -> snd (Hotel.create_hotel i n loc k f) = f.
Proof.
  intros H. unfold Hotel.create_hotel.
  destruct (falsy i || falsy n); [reflexivity|].
  destruct k as [z| |]; try reflexivity.
  destruct (z <=? 0); [reflexivity|].
  unfold bind, Hotel.load_all. rewrite H. reflexivity.
Qed.

Lemma delete_hotel_run (i : string) (f : file Hotel.record)
    (records : list Hotel.record) :
  loads f records ->
  let kept := filter (fun r => negb (Hotel.has_id i r)) records in
  Hotel.delete_hotel i f
  = if Nat.eqb (List.length kept) (List.length records) then (Val false, f)
    else (Val true, Stored kept).
Proof.
  intros H. unfold Hotel.delete_hotel, bind, Hotel.load_all.
  rewrite (loads_run _ _ H). simpl.
  destruct (Nat.eqb _ _); reflexivity.
Qed.

Lemma delete_hotel_raises (i : string) (f : file Hotel.record) (e : exn) :
  load_json f = (Exc e, f) -> Hotel.delete_hotel i f = (Exc e, f).
Proof.
  intros H. unfold Hotel.delete_hotel, bind, Hotel.load_all.
  rewrite H. reflexivity.
Qed.

Lemma modify_body_ok (kw : Hotel.kwargs) (r r' : Hotel.record) :
  hotel_ok r -> Hotel.modify_body kw r = Some r' -> hotel_ok r'.
Proof.
  unfold hotel_ok, Hotel.modify_body. intros Hr.
  destruct (Hotel.kw_rooms kw) as [[z| |]|]; simpl; try discriminate.
  - destruct (z <=? 0) eqn:Ez; simpl; [discriminate|].
    apply Z.leb_gt in Ez. intros H. injection H as <-. simpl. lia.
  - intros H. injection H as <-. simpl. exact Hr.
Qed.

Lemma reserve_body_ok (r r' : Hotel.record) :
  hotel_ok r -> Hotel.reserve_body r = Some r' -> hotel_ok r'.
Proof.
  unfold hotel_ok, Hotel.reserve_body. intros Hr.
  destruct (Hotel.rooms_available r <=? 0) eqn:E; [discriminate|].
  apply Z.leb_gt in E. intros H. injection H as <-. simpl. lia.
Qed.

Lemma cancel_body_ok (r r' : Hotel.record) :
  hotel_ok r -> Hotel.cancel_body r = Some r' -> hotel_ok r'.
Proof.
  unfold hotel_ok, Hotel.cancel_body. intros Hr.
  destruct (Hotel.rooms r <=? Hotel.rooms_available r) eqn:E; [discriminate|].
  apply Z.leb_gt in E. intros H. injection H as <-. simpl. lia.
Qed.

Lemma scan_and_save_ok (p : Hotel.record -> bool)
    (body : Hotel.record -> option Hotel.record) (f : file Hotel.record) :
  (forall r r', hotel_ok r -> body r = Some r' -> hotel_ok r') ->
  store_ok f -> store_ok (snd (scan_and_save p body f)).
Proof.
  intros Hbody Hf.
  destruct (load_json_cases f) as [[l Hl] | [e He]].
  - rewrite (scan_and_save_run _ _ _ _ Hl).
    destruct (for_first p body l) as [| |l'] eqn:E; simpl; try exact Hf.
    apply store_ok_stored.
    exact (for_first_Forall _ _ _ _ _ Hbody (store_ok_loads _ _ Hf Hl) E).
  - rewrite (scan_and_save_raises _ _ _ _ He). exact Hf.
Qed.

(** C1: a hotel file whose records all satisfy
    [0 <= rooms_available <= rooms] still has only such records after
    [create_hotel], [modify_hotel] (with or without a [rooms] keyword),
    [reserve_room], [cancel_reservation] or [delete_hotel], whatever the
    arguments and whether the call succeeds, fails or raises. *)
Theorem hotel_invariant_preserved (c : hotel_call) (f : file Hotel.record) :
  store_ok f -> store_ok (after c f).
Proof.
  intros Hf. destruct c as [i n loc k | i kw | i | i | i]; simpl.
  - destruct (load_json_cases f) as [[l Hl] | [e He]].
    + rewrite (create_hotel_run _ _ _ _ _ _ Hl).
      destruct (falsy i || falsy n); [exact Hf|].
      destruct k as [z| |]; try exact Hf.
      destruct (z <=? 0) eqn:Ez; [exact Hf|].
      destruct (existsb (Hotel.has_id i) l); [exact Hf|].
      apply Z.leb_gt in Ez. simpl. apply store_ok_stored.
      apply Forall_app. split; [exact (store_ok_loads _ _ Hf Hl)|].
      constructor; [|constructor]. unfold hotel_ok. simpl. lia.
    + rewrite (create_hotel_raises _ _ _ _ _ _ He). exact Hf.
  - rewrite modify_hotel_scan.
    apply scan_and_save_ok; [apply modify_body_ok | exact Hf].
  - rewrite reserve_room_scan.
    apply scan_and_save_ok; [apply reserve_body_ok | exact Hf].
  - rewrite hotel_cancel_scan.
    apply scan_and_save_ok; [apply cancel_body_ok | exact Hf].
  - destruct (load_json_cases f) as [[l Hl] | [e He]].
    + pose proof (delete_hotel_run i f l Hl) as Hrun. simpl in Hrun.
      rewrite Hrun. destruct (Nat.eqb _ _); [exact Hf|]. simpl.
      apply store_ok_stored.
      pose proof (store_ok_loads _ _ Hf Hl) as Hall.
      rewrite Forall_forall in *. intros x Hx.
      apply filter_In in Hx. apply Hall, Hx.
    + rewrite (delete_hotel_raises _ _ _ He). exact Hf.
Qed.

Lemma hotel_invariant_preserved_witness :
  store_ok (Stored [grand])
  /\ store_ok (after (ModifyHotel "H1"
                        {| Hotel.kw_name := None; Hotel.kw_location := None;
                           Hotel.kw_rooms := Some (PyInt 1);
                           Hotel.kw_other := [] |})
                 (Stored [grand])).
Proof.
  assert (H : store_ok (Stored [grand])).
  { apply store_ok_stored. constructor; [|constructor].
    unfold hotel_ok. simpl. lia. }
  split; [exact H|].
  apply (hotel_invariant_preserved _ _ H).
Defined.

Lemma set_available_same (r : Hotel.record) (n : Z) :
  n = Hotel.rooms_available r -> Hotel.set_available n r = r.
Proof. intros ->. destruct r. reflexivity. Qed.

Lemma set_available_twice (n m : Z) (r : Hotel.record) :
  Hotel.set_available n (Hotel.set_available m r) = Hotel.set_available n r.
Proof. reflexivity. Qed.

(** C4: when the first record with the given id has
    [0 <= rooms_available <= rooms] and [rooms_available > 0],
    [reserve_room] returns [True], [cancel_reservation] on the file it
    wrote returns [True] too, and the file is then the original one. *)
Theorem reserve_then_release_restores (i : string) (f : file Hotel.record)
    (records : list Hotel.record) (h : Hotel.record) :
  loads f records ->
  lookup (Hotel.has_id i) records = Some h ->
  hotel_ok h ->
  0 < Hotel.rooms_available h ->
  exists f1,
    Hotel.reserve_room i f = (Val true, f1)
    /\ Hotel.cancel_reservation i f1 = (Val true, f).
Proof.
  intros Hl Hfind [_ Hle] Hpos.
  destruct (find_split _ _ _ Hfind) as (pre & post & -> & Hpre & Hh).
  assert (Hf : f = Stored (pre ++ h :: post)).
  { destruct pre; exact (loads_stored _ _ _ Hl). }
  set (h1 := Hotel.set_available (Hotel.rooms_available h - 1) h).
  exists (Stored (pre ++ h1 :: post)). split.
  - rewrite reserve_room_scan, (scan_and_save_run _ _ _ _ Hl).
    rewrite (for_first_at _ _ _ _ _ Hpre Hh). unfold Hotel.reserve_body.
    destruct (Hotel.rooms_available h <=? 0) eqn:E.
    + apply Z.leb_le in E. lia.
    + reflexivity.
  - rewrite hotel_cancel_scan.
    rewrite (scan_and_save_run _ _ _ _ (loads_of_stored _)).
    rewrite (for_first_at _ _ _ _ h1 Hpre Hh). unfold Hotel.cancel_body.
    destruct (Hotel.rooms h1 <=? Hotel.rooms_available h1) eqn:E.
    + apply Z.leb_le in E. simpl in E. lia.
    + subst h1. rewrite set_available_twice, set_available_same, Hf.
      * reflexivity.
      * simpl. lia.
Qed.

Lemma reserve_then_release_restores_witness :
  exists f1,
    Hotel.reserve_room "H1" (Stored [grand]) = (Val true, f1)
    /\ Hotel.cancel_reservation "H1" f1 = (Val true, Stored [grand]).
Proof.
  apply (reserve_then_release_restores "H1" (Stored [grand]) [grand] grand).
  - reflexivity.
  - reflexivity.
  - unfold hotel_ok. simpl. lia.
  - simpl. lia.
Defined.

(** C6: [modify_hotel] with [rooms=n], [n] a positive integer, on a file
    that holds the hotel returns [True] and rewrites the first record with
    that id only: its [rooms] becomes [n] and its [rooms_available] becomes
    [max 0 (rooms_available + (n - rooms))]; [name] and [location] change
    only when given.  Nothing caps the new [rooms_available] at [n]: when
    the shifted count is above [n], so is the stored one. *)
Theorem modify_hotel_rooms (i : string) (kw : Hotel.kwargs)
    (f : file Hotel.record) (records : list Hotel.record)
    (h : Hotel.record) (n : Z) :
  loads f records ->
  lookup (Hotel.has_id i) records = Some h ->
  Hotel.kw_rooms kw = Some (PyInt n) ->
  0 < n ->
  exists pre post h',
    records = pre ++ h :: post
    /\ existsb (Hotel.has_id i) pre = false
    /\ Hotel.modify_hotel i kw f = (Val true, Stored (pre ++ h' :: post))
    /\ Hotel.hotel_id h' = Hotel.hotel_id h
    /\ Hotel.rooms h' = n
    /\ Hotel.rooms_available h'
       = Z.max 0 (Hotel.rooms_available h + (n - Hotel.rooms h))
    /\ (n < Hotel.rooms_available h + (n - Hotel.rooms h) ->
        Hotel.rooms h' < Hotel.rooms_available h')
    /\ Hotel.name h'
       = match Hotel.kw_name kw with Some v => v | None => Hotel.name h end
    /\ Hotel.location h'
       = match Hotel.kw_location kw with
         | Some v => v
         | None => Hotel.location h
         end.
Proof.
  intros Hl Hfind Hkw Hn.
  destruct (find_split _ _ _ Hfind) as (pre & post & -> & Hpre & Hh).
  assert (Hbody : Hotel.modify_body kw h
                  = Some (Hotel.assign kw (Some n)
                            (Hotel.set_available
                               (Z.max 0 (Hotel.rooms_available h
                                         + (n - Hotel.rooms h))) h))).
  { unfold Hotel.modify_body. rewrite Hkw. simpl.
    destruct (n <=? 0) eqn:E; [apply Z.leb_le in E; lia | reflexivity]. }
  eexists pre, post, _. split; [reflexivity|]. split; [exact Hpre|]. split.
  - rewrite modify_hotel_scan, (scan_and_save_run _ _ _ _ Hl).
    rewrite (for_first_at _ _ _ _ _ Hpre Hh), Hbody. reflexivity.
  - simpl. repeat split. lia.
Qed.

Lemma modify_hotel_rooms_witness :
  exists pre post h',
    [Hotel.set_available 5 grand] = pre ++ Hotel.set_available 5 grand :: post
    /\ existsb (Hotel.has_id "H1") pre = false
    /\ Hotel.modify_hotel "H1"
         {| Hotel.kw_name := None; Hotel.kw_location := Some "GDL";
            Hotel.kw_rooms := Some (PyInt 3); Hotel.kw_other := [] |}
         (Stored [Hotel.set_available 5 grand])
       = (Val true, Stored (pre ++ h' :: post))
    /\ Hotel.hotel_id h' = "H1"
    /\ Hotel.rooms h' = 3
    /\ Hotel.rooms_available h' = Z.max 0 (5 + (3 - 2))
    /\ (3 < 5 + (3 - 2) -> Hotel.rooms h' < Hotel.rooms_available h')
    /\ Hotel.name h' = "Grand"
    /\ Hotel.location h' = "GDL".
Proof.
  apply (modify_hotel_rooms "H1"
           {| Hotel.kw_name := None; Hotel.kw_location := Some "GDL";
              Hotel.kw_rooms := Some (PyInt 3); Hotel.kw_other := [] |}
           (Stored [Hotel.set_available 5 grand])
           [Hotel.set_available 5 grand] (Hotel.set_available 5 grand) 3).
  - reflexivity.
  - reflexivity.
  - reflexivity.
  - lia.
Defined.

(** The count a rooms change leaves can exceed the new capacity: a record
    with 5 of 2 rooms available, given [rooms=3], is stored with 6 of 3. *)
Example modify_hotel_above_capacity :
  Hotel.modify_hotel "H1"
    {| Hotel.kw_name := None; Hotel.kw_location := None;
       Hotel.kw_rooms := Some (PyInt 3); Hotel.kw_other := [] |}
    (Stored [Hotel.set_available 5 grand])
  = (Val true,
     Stored [{| Hotel.hotel_id := "H1"; Hotel.name := "Grand";
                Hotel.location := "CDMX"; Hotel.rooms := 3;
                Hotel.rooms_available := 6 |}]).
Proof. reflexivity. Qed.

(** ** The Customer store *)

Lemma validate_email_false (e : string) :
  Customer._validate_email e = false
  <-> e = "" \/ contains "@"%char e = false.
Proof.
  unfold Customer._validate_email. destruct e as [|a e]; simpl.
  - split; auto.
  - destruct (if Ascii.eqb a "@" then true else contains "@" e); simpl.
    + split; [discriminate | intros [H|H]; discriminate].
    + split; auto.
Qed.

(** C7: [modify_customer] returns [False], writing nothing, when no record
    has the id or when an [email] keyword is given that is empty or has no
    ["@"].  Otherwise it returns [True] and rewrites the first record with
    that id only: [name] and [email] take the given values, a field that is
    not given keeps its value, [customer_id] is kept whatever the other
    keywords are, and every other record is stored as it was. *)
Theorem modify_customer_frame (i : string) (kw : Customer.kwargs)
    (f : file Customer.record) (records : list Customer.record) :
  loads f records ->
  ((existsb (Customer.has_id i) records = false
    \/ (exists e, Customer.kw_email kw = Some e
                  /\ (e = "" \/ contains "@"%char e = false))) ->
   Customer.modify_customer i kw f = (Val false, f))
  /\ (forall r,
        lookup (Customer.has_id i) records = Some r ->
        (forall e, Customer.kw_email kw = Some e ->
                   e <> "" /\ contains "@"%char e = true) ->
        exists pre post r',
          records = pre ++ r :: post
          /\ existsb (Customer.has_id i) pre = false
          /\ Customer.modify_customer i kw f
             = (Val true, Stored (pre ++ r' :: post))
          /\ Customer.customer_id r' = Customer.customer_id r
          /\ Customer.name r'
             = match Customer.kw_name kw with
               | Some v => v
               | None => Customer.name r
               end
          /\ Customer.email r'
             = match Customer.kw_email kw with
               | Some v => v
               | None => Customer.email r
               end).
Proof.
  intros Hl. rewrite modify_customer_scan, (scan_and_save_run _ _ _ _ Hl).
  split.
  - intros [Hno | (e & He & Hbad)].
    + rewrite (for_first_not_found _ _ _ Hno). reflexivity.
    + destruct (existsb (Customer.has_id i) records) eqn:Hex.
      * destruct (existsb_find _ _ Hex) as [r Hr].
        destruct (find_split _ _ _ Hr) as (pre & post & -> & Hpre & Hm).
        rewrite (for_first_at _ _ _ _ _ Hpre Hm).
        unfold Customer.modify_body. rewrite He.
        apply validate_email_false in Hbad. rewrite Hbad. reflexivity.
      * rewrite (for_first_not_found _ _ _ Hex). reflexivity.
  - intros r Hr Hgood.
    destruct (find_split _ _ _ Hr) as (pre & post & -> & Hpre & Hm).
    exists pre, post, (Customer.assign kw r).
    split; [reflexivity|]. split; [exact Hpre|]. split.
    + rewrite (for_first_at _ _ _ _ _ Hpre Hm).
      unfold Customer.modify_body.
      destruct (Customer.kw_email kw) as [e|] eqn:He; [|reflexivity].
      destruct (Customer._validate_email e) eqn:Hv; [reflexivity|].
      apply validate_email_false in Hv.
      destruct (Hgood e eq_refl) as [Hne Hat].
      destruct Hv as [Hv|Hv]; congruence.
    + repeat split.
Qed.

Lemma modify_customer_frame_witness :
  let kw := {| Customer.kw_name := Some "Ana M"; Customer.kw_email := None;
               Customer.kw_other := [("customer_id", PyStr "C2")] |} in
  loads (Stored [ana]) [ana]
  /\ Customer.modify_customer "C9" kw (Stored [ana]) = (Val false, Stored [ana])
  /\ exists pre post r',
       [ana] = pre ++ ana :: post
       /\ existsb (Customer.has_id "C1") pre = false
       /\ Customer.modify_customer "C1" kw (Stored [ana])
          = (Val true, Stored (pre ++ r' :: post))
       /\ Customer.customer_id r' = "C1"
       /\ Customer.name r' = "Ana M"
       /\ Customer.email r' = "ana@mail.com".
Proof.
  intros kw.
  assert (Hl : loads (Stored [ana]) [ana]) by reflexivity.
  split; [exact Hl|]. split.
  - apply (proj1 (modify_customer_frame "C9" kw (Stored [ana]) [ana] Hl)).
    left. reflexivity.
  - apply (proj2 (modify_customer_frame "C1" kw (Stored [ana]) [ana] Hl) ana).
    + reflexivity.
    + intros e He. discriminate He.
Defined.

Example modify_customer_name_only :
  Customer.modify_customer "C1"
    {| Customer.kw_name := Some "Ana M"; Customer.kw_email := None;
       Customer.kw_other := [("customer_id", PyStr "C2")] |}
    (Stored [ana])
  = (Val true,
     Stored [{| Customer.customer_id := "C1"; Customer.name := "Ana M";
                Customer.email := "ana@mail.com" |}]).
Proof. reflexivity. Qed.

(** ** The Reservation store *)

Lemma zoom_run {W S A : Type} (get : W -> S) (set : S -> W -> W)
    (m : M S A) (w : W) :
  zoom get set m w = (fst (m (get w)), set (snd (m (get w))) w).
Proof. unfold zoom. destruct (m (get w)). reflexivity. Qed.

Lemma set_file_path_same (w : Reservation.World) :
  Reservation.set_file_path (Reservation.file_path w) w = w.
Proof. destruct w. reflexivity. Qed.

Lemma set_hotel_file_same (w : Reservation.World) :
  Reservation.set_hotel_file (Reservation.hotel_file w) w = w.
Proof. destruct w. reflexivity. Qed.

Lemma set_customer_file_same (w : Reservation.World) :
  Reservation.set_customer_file (Reservation.customer_file w) w = w.
Proof. destruct w. reflexivity. Qed.

Section ZoomedLoads.

Context {R : Type}.
Variables (get : Reservation.World -> file R)
          (set : file R -> Reservation.World -> Reservation.World).
Hypothesis set_same : forall w, set (get w) w = w.

Lemma zoom_load_json (w : Reservation.World) :
  zoom get set load_json w = (fst (load_json (get w)), w).
Proof. rewrite zoom_run, load_json_keeps, set_same. reflexivity. Qed.

Lemma zoom_scan_and_save (p : R -> bool) (body : R -> option R)
    (w : Reservation.World) (records : list R) :
  loads (get w) records ->
  zoom get set (scan_and_save p body) w
  = match for_first p body records with
    | Updated records' => (Val true, set (Stored records') w)
    | _ => (Val false, w)
    end.
Proof.
  intros Hl. rewrite zoom_run, (scan_and_save_run _ _ _ _ Hl).
  destruct (for_first p body records); simpl;
    rewrite ?set_same; reflexivity.
Qed.

Lemma zoom_scan_and_save_raises (p : R -> bool) (body : R -> option R)
    (w : Reservation.World) (e : exn) :
  load_json (get w) = (Exc e, get w) ->
  zoom get set (scan_and_save p body) w = (Exc e, w).
Proof.
  intros He. rewrite zoom_run, (scan_and_save_raises _ _ _ _ He).
  simpl. rewrite set_same. reflexivity.
Qed.

End ZoomedLoads.

Lemma falsy_empty (s : string) : falsy s = true <-> s = "".
Proof. destruct s; simpl; split; congruence. Qed.

(** What [create_reservation] does once the three files are loaded. *)
Lemma create_reservation_run (i c h : string) (w : Reservation.World)
    (records : list Reservation.record) (customers : list Customer.record)
    (hotels : list Hotel.record) :
  loads (Reservation.file_path w) records ->
  loads (Reservation.customer_file w) customers ->
  loads (Reservation.hotel_file w) hotels ->
  Reservation.create_reservation i c h w
  = if falsy i then (Val None, w)
    else if existsb (Reservation.has_id i) records then (Val None, w)
    else if negb (existsb (Customer.has_id c) customers) then (Val None, w)
    else if negb (existsb (Hotel.has_id h) hotels) then (Val None, w)
    else
      match for_first (Hotel.has_id h) Hotel.reserve_body hotels with
      | Updated hotels' =>
          let reservation :=
            {| Reservation.reservation_id := i;
               Reservation.customer_id := c;
               Reservation.hotel_id := h |} in
          (Val (Some reservation),
           {| Reservation.file_path := Stored (records ++ [reservation]);
              Reservation.hotel_file := Stored hotels';
              Reservation.customer_file := Reservation.customer_file w |})
      | _ => (Val None, w)
      end.
Proof.
  intros Hr Hc Hh. unfold Reservation.create_reservation.
  destruct (falsy i); [reflexivity|].
  unfold bind at 1. unfold Reservation.load_all.
  rewrite (zoom_load_json _ _ set_file_path_same), Hr.
  destruct (existsb (Reservation.has_id i) records); [reflexivity|].
  unfold bind at 1. unfold Customer.load_all.
  rewrite (zoom_load_json _ _ set_customer_file_same), Hc.
  destruct (negb (existsb (Customer.has_id c) customers)); [reflexivity|].
  unfold bind at 1. unfold Hotel.load_all.
  rewrite (zoom_load_json _ _ set_hotel_file_same), Hh.
  destruct (negb (existsb (Hotel.has_id h) hotels)); [reflexivity|].
  unfold bind at 1. rewrite reserve_room_scan.
  rewrite (zoom_scan_and_save _ _ set_hotel_file_same _ _ _ _ Hh).
  destruct (for_first (Hotel.has_id h) Hotel.reserve_body hotels);
    reflexivity.
Qed.

(** Either one of the rejecting conditions holds and the call returns
    [None] with no file written, or none holds and the call goes through. *)
Lemma create_reservation_outcome (i c h : string) (w : Reservation.World)
    (records : list Reservation.record) (customers : list Customer.record)
    (hotels : list Hotel.record) :
  loads (Reservation.file_path w) records ->
  loads (Reservation.customer_file w) customers ->
  loads (Reservation.hotel_file w) hotels ->
  (create_rejects i c h records customers hotels
   /\ Reservation.create_reservation i c h w = (Val None, w))
  \/ (~ create_rejects i c h records customers hotels
      /\ exists pre r post,
           hotels = pre ++ r :: post
           /\ existsb (Hotel.has_id h) pre = false
           /\ Hotel.has_id h r = true
           /\ 0 < Hotel.rooms_available r
           /\ Reservation.create_reservation i c h w
              = (Val (Some {| Reservation.reservation_id := i;
                              Reservation.customer_id := c;
                              Reservation.hotel_id := h |}),
                 {| Reservation.file_path :=
                      Stored (records
                              ++ [{| Reservation.reservation_id := i;
                                     Reservation.customer_id := c;
                                     Reservation.hotel_id := h |}]);
                    Reservation.hotel_file :=
                      Stored (pre
                              ++ Hotel.set_available
                                   (Hotel.rooms_available r - 1) r :: post);
                    Reservation.customer_file :=
                      Reservation.customer_file w |})).
Proof.
  intros Hr Hc Hh.
  rewrite (create_reservation_run _ _ _ _ _ _ _ Hr Hc Hh).
  unfold create_rejects.
  destruct (falsy i) eqn:Ei.
  { left. split; [|reflexivity]. left. apply falsy_empty, Ei. }
  destruct (existsb (Reservation.has_id i) records) eqn:Er.
  { left. split; [|reflexivity]. right; left. reflexivity. }
  destruct (existsb (Customer.has_id c) customers) eqn:Ec; simpl.
  2: { left. split; [|reflexivity]. right; right; left. reflexivity. }
  destruct (existsb (Hotel.has_id h) hotels) eqn:Eh; simpl.
  2: { left. split; [|reflexivity]. right; right; right; left. reflexivity. }
  destruct (existsb_find _ _ Eh) as [r Hfind].
  destruct (find_split _ _ _ Hfind) as (pre & post & -> & Hpre & Hm).
  rewrite (for_first_at _ _ _ _ _ Hpre Hm). unfold Hotel.reserve_body.
  destruct (Hotel.rooms_available r <=? 0) eqn:Ea.
  - apply Z.leb_le in Ea. left. split; [|reflexivity].
    right; right; right; right. exists r. split; [exact Hfind | exact Ea].
  - apply Z.leb_gt in Ea. right. split.
    + intros [H | [H | [H | [H | (r' & Hr' & Hz)]]]].
      * apply falsy_empty in H. congruence.
      * discriminate.
      * discriminate.
      * discriminate.
      * unfold lookup in Hr', Hfind. rewrite Hfind in Hr'.
        injection Hr' as <-. lia.
    + exists pre, r, post. repeat split; auto.
Qed.


(** Whatever the counts on file, [create_reservation] returns [None]
    exactly under the guard [create_rejects]; in every other case it
    returns the new reservation, appends it, and takes one room of the
    first hotel with the id. *)
Lemma create_reservation_by_guard (i c h : string) (w : Reservation.World)
    (records : list Reservation.record) (customers : list Customer.record)
    (hotels : list Hotel.record) :
  loads (Reservation.file_path w) records ->
  loads (Reservation.customer_file w) customers ->
  loads (Reservation.hotel_file w) hotels ->
  let reservation :=
    {| Reservation.reservation_id := i; Reservation.customer_id := c;
       Reservation.hotel_id := h |} in
  (fst (Reservation.create_reservation i c h w) = Val None
   <-> create_rejects i c h records customers hotels)
  /\ (~ create_rejects i c h records customers hotels ->
      exists pre r post,
        hotels = pre ++ r :: post
        /\ existsb (Hotel.has_id h) pre = false
        /\ Hotel.has_id h r = true
        /\ Reservation.create_reservation i c h w
           = (Val (Some reservation),
              {| Reservation.file_path := Stored (records ++ [reservation]);
                 Reservation.hotel_file :=
                   Stored (pre
                           ++ Hotel.set_available
                                (Hotel.rooms_available r - 1) r :: post);
                 Reservation.customer_file :=
                   Reservation.customer_file w |})).
Proof.
  intros Hr Hc Hh reservation.
  destruct (create_reservation_outcome i c h w _ _ _ Hr Hc Hh)
    as [[Hfail Hrun] | [Hok (pre & r & post & Hs & Hpre & Hm & Hpos & Hrun)]].
  - split.
    + rewrite Hrun. simpl. tauto.
    + intros Hno. contradiction.
  - split.
    + rewrite Hrun. simpl. split; [discriminate | contradiction].
    + intros _. exists pre, r, post. auto.
Qed.




Example create_reservation_decrements :
  Reservation.create_reservation "R1" "C1" "H1"
    (Reservation.set_file_path Missing full_house)
  = (Val (Some r1),
     {| Reservation.file_path := Stored [r1];
        Reservation.hotel_file := Stored [Hotel.set_available 1 grand];
        Reservation.customer_file := Stored [ana] |}).
Proof. reflexivity. Qed.

Example create_reservation_no_rooms :
  let w := {| Reservation.file_path := Missing;
              Reservation.hotel_file := Stored [Hotel.set_available 0 grand];
              Reservation.customer_file := Stored [ana] |} in
  Reservation.create_reservation "R1" "C1" "H1" w = (Val None, w).
Proof. reflexivity. Qed.

(** C9: whenever [create_reservation] returns [None], for whichever
    reason, the reservation file, the hotel file and the customer file are
    what they were before the call. *)
Theorem failed_create_writes_nothing (i c h : string)
    (w : Reservation.World) :
  fst (Reservation.create_reservation i c h w) = Val None ->
  snd (Reservation.create_reservation i c h w) = w.
Proof.
  remember (Reservation.create_reservation i c h w) as out eqn:E.
  unfold Reservation.create_reservation in E.
  destruct (falsy i); [subst out; reflexivity|].
  unfold bind at 1 in E. unfold Reservation.load_all in E.
  rewrite (zoom_load_json _ _ set_file_path_same) in E.
  destruct (fst (load_json (Reservation.file_path w)))
    as [records|e] eqn:Er; [|subst out; discriminate].
  destruct (existsb (Reservation.has_id i) records);
    [subst out; reflexivity|].
  unfold bind at 1 in E. unfold Customer.load_all in E.
  rewrite (zoom_load_json _ _ set_customer_file_same) in E.
  destruct (fst (load_json (Reservation.customer_file w)))
    as [customers|e] eqn:Ec; [|subst out; discriminate].
  destruct (negb (existsb (Customer.has_id c) customers));
    [subst out; reflexivity|].
  unfold bind at 1 in E. unfold Hotel.load_all in E.
  rewrite (zoom_load_json _ _ set_hotel_file_same) in E.
  destruct (fst (load_json (Reservation.hotel_file w)))
    as [hotels|e] eqn:Eh; [|subst out; discriminate].
  destruct (negb (existsb (Hotel.has_id h) hotels));
    [subst out; reflexivity|].
  unfold bind at 1 in E. rewrite reserve_room_scan in E.
  rewrite (zoom_scan_and_save _ _ set_hotel_file_same _ _ _ _ Eh) in E.
  destruct (for_first (Hotel.has_id h) Hotel.reserve_body hotels);
    subst out; simpl; try reflexivity.
  discriminate.
Qed.

Lemma failed_create_writes_nothing_witness :
  let w := {| Reservation.file_path := Stored [r1];
              Reservation.hotel_file := Stored [Hotel.set_available 0 grand];
              Reservation.customer_file := Stored [ana] |} in
  fst (Reservation.create_reservation "R2" "C1" "H1" w) = Val None
  /\ snd (Reservation.create_reservation "R2" "C1" "H1" w) = w.
Proof.
  intros w. split; [reflexivity|].
  apply (failed_create_writes_nothing "R2" "C1" "H1" w). reflexivity.
Defined.


(** What [cancel_reservation] does once the reservation is found and the
    hotel file is loaded: the reservation file is rewritten without the
    id, and the hotel file is whatever [Hotel.cancel_reservation] left. *)
Lemma cancel_reservation_run (i : string) (w : Reservation.World)
    (records : list Reservation.record) (target : Reservation.record)
    (hotels : list Hotel.record) :
  loads (Reservation.file_path w) records ->
  lookup (Reservation.has_id i) records = Some target ->
  loads (Reservation.hotel_file w) hotels ->
  Reservation.cancel_reservation i w
  = (Val true,
     {| Reservation.file_path := Stored (without i records);
        Reservation.hotel_file :=
          snd (Hotel.cancel_reservation (Reservation.hotel_id target)
                 (Reservation.hotel_file w));
        Reservation.customer_file := Reservation.customer_file w |}).
Proof.
  intros Hr Hfind Hh. unfold Reservation.cancel_reservation.
  unfold bind at 1. unfold Reservation.load_all.
  rewrite (zoom_load_json _ _ set_file_path_same), Hr.
  unfold lookup in Hfind. rewrite Hfind.
  unfold bind at 1. rewrite hotel_cancel_scan.
  rewrite (zoom_scan_and_save _ _ set_hotel_file_same _ _ _ _ Hh).
  rewrite (scan_and_save_run _ _ _ _ Hh).
  destruct (for_first (Hotel.has_id (Reservation.hotel_id target))
              Hotel.cancel_body hotels); destruct w; reflexivity.
Qed.



Example cancel_with_hotel_deleted :
  let w := Reservation.set_hotel_file Missing full_house in
  Reservation.cancel_reservation "R1" w
  = (Val true, Reservation.set_file_path (Stored []) w).
Proof. reflexivity. Qed.




(** ** Duplicate ids *)

Lemma create_customer_duplicate (i n e : string) (f : file Customer.record)
    (records : list Customer.record) :
  loads f records ->
  existsb (Customer.has_id i) records = true ->
  Customer.create_customer i n e f = (Val None, f).
Proof.
  intros Hl Hex. unfold Customer.create_customer.
  destruct (falsy i || falsy n); [reflexivity|].
  destruct (negb (Customer._validate_email e)); [reflexivity|].
  unfold bind, Customer.load_all. rewrite (loads_run _ _ Hl), Hex.
  reflexivity.
Qed.

Lemma create_hotel_duplicate (i n loc : string) (k : py_value)
    (f : file Hotel.record) (records : list Hotel.record) :
  loads f records ->
  existsb (Hotel.has_id i) records = true ->
  Hotel.create_hotel i n loc k f = (Val None, f).
Proof.
  intros Hl Hex. rewrite (create_hotel_run _ _ _ _ _ _ Hl), Hex.
  destruct (falsy i || falsy n); [reflexivity|].
  destruct k as [z| |]; try reflexivity.
  destruct (z <=? 0); reflexivity.
Qed.

Lemma create_reservation_duplicate (i c h : string) (w : Reservation.World)
    (records : list Reservation.record) :
  loads (Reservation.file_path w) records ->
  existsb (Reservation.has_id i) records = true ->
  Reservation.create_reservation i c h w = (Val None, w).
Proof.
  intros Hl Hex. unfold Reservation.create_reservation.
  destruct (falsy i); [reflexivity|].
  unfold bind at 1. unfold Reservation.load_all.
  rewrite (zoom_load_json _ _ set_file_path_same), Hl, Hex. reflexivity.
Qed.

(** C5: for each of the three stores, a create call whose id is already
    in the file returns [None] (nothing is created), whatever its other
    arguments, and the three files are what they were before the call. *)
Theorem duplicate_create_fails (c : create_call) (w : Reservation.World) :
  id_present c w -> run_create c w = (Val false, w).
Proof.
  destruct c as [i n e | i n loc k | i cu h]; simpl;
    intros (records & Hl & Hex); unfold run_create.
  - rewrite zoom_run, (create_customer_duplicate _ _ _ _ _ Hl Hex).
    simpl. rewrite set_customer_file_same. reflexivity.
  - rewrite zoom_run, (create_hotel_duplicate _ _ _ _ _ _ Hl Hex).
    simpl. rewrite set_hotel_file_same. reflexivity.
  - rewrite (create_reservation_duplicate _ _ _ _ _ Hl Hex). reflexivity.
Qed.

Lemma duplicate_create_fails_witness :
  run_create (CreateCustomerCall "C1" "Eva" "eva@mail.com") full_house
  = (Val false, full_house)
  /\ run_create (CreateHotelCall "H1" "Other" "GDL" (PyInt 5)) full_house
     = (Val false, full_house)
  /\ run_create (CreateReservationCall "R1" "C1" "H1") full_house
     = (Val false, full_house).
Proof.
  split; [|split].
  - apply (duplicate_create_fails
             (CreateCustomerCall "C1" "Eva" "eva@mail.com") full_house).
    exists [ana]. split; reflexivity.
  - apply (duplicate_create_fails
             (CreateHotelCall "H1" "Other" "GDL" (PyInt 5)) full_house).
    exists [grand]. split; reflexivity.
  - apply (duplicate_create_fails
             (CreateReservationCall "R1" "C1" "H1") full_house).
    exists [r1]. split; reflexivity.
Defined.

(** * Further properties of the three stores *)

(** ** Lists of records *)

Section RecordLists.

Context {R : Type}.
Variable p : R -> bool.

Lemma find_after_append (l : list R) (x : R) :
  existsb p l = false -> p x = true -> find p (l ++ [x]) = Some x.
Proof.
  intros Hl Hx. induction l as [|y l IH]; simpl.
  - rewrite Hx. reflexivity.
  - simpl in Hl. apply orb_false_iff in Hl as [Hy Hl].
    rewrite Hy. exact (IH Hl).
Qed.

Lemma filter_after_append (l : list R) (x : R) :
  existsb p l = false -> p x = true -> filter p (l ++ [x]) = [x].
Proof.
  intros Hl Hx. induction l as [|y l IH]; simpl.
  - rewrite Hx. reflexivity.
  - simpl in Hl. apply orb_false_iff in Hl as [Hy Hl].
    rewrite Hy. exact (IH Hl).
Qed.

Lemma find_at_first (pre post : list R) (r : R) :
  existsb p pre = false -> p r = true -> find p (pre ++ r :: post) = Some r.
Proof.
  intros Hpre Hr. induction pre as [|x pre IH]; simpl.
  - rewrite Hr. reflexivity.
  - simpl in Hpre. apply orb_false_iff in Hpre as [Hx Hpre].
    rewrite Hx. exact (IH Hpre).
Qed.

Lemma filter_out_absent (l : list R) :
  existsb p l = false -> filter (fun r => negb (p r)) l = l.
Proof.
  induction l as [|y l IH]; simpl; [reflexivity|].
  intros H. apply orb_false_iff in H as [Hy Hl].
  rewrite Hy. simpl. rewrite (IH Hl). reflexivity.
Qed.

Lemma filter_out_appended (l : list R) (x : R) :
  existsb p l = false -> p x = true ->
  filter (fun r => negb (p r)) (l ++ [x]) = l.
Proof.
  intros Hl Hx. rewrite filter_app, (filter_out_absent _ Hl). simpl.
  rewrite Hx. simpl. apply app_nil_r.
Qed.

Lemma existsb_filter_out (l : list R) :
  existsb p (filter (fun r => negb (p r)) l) = false.
Proof.
  induction l as [|y l IH]; simpl; [reflexivity|].
  destruct (p y) eqn:E; simpl; [exact IH|].
  rewrite E, IH. reflexivity.
Qed.

Lemma filter_out_shorter (l : list R) :
  existsb p l = true ->
  (List.length (filter (fun r => negb (p r)) l) < List.length l)%nat.
Proof.
  induction l as [|y l IH]; simpl; [discriminate|].
  destruct (p y); simpl.
  - intros _.
    pose proof (filter_length_le (fun r => negb (p r)) l). lia.
  - intros H. apply IH in H. lia.
Qed.

(** The length test of the delete operations sees whether the id is there. *)
Lemma same_length_iff_absent (l : list R) :
  Nat.eqb (List.length (filter (fun r => negb (p r)) l)) (List.length l)
  = negb (existsb p l).
Proof.
  destruct (existsb p l) eqn:E; simpl.
  - apply Nat.eqb_neq. pose proof (filter_out_shorter _ E). lia.
  - rewrite (filter_out_absent _ E). apply Nat.eqb_refl.
Qed.

End RecordLists.

(** ** Instances and dicts *)

(** X1: for each of the three classes, [from_dict] applied to what [to_dict]
    returns gives back the instance, whatever its attributes hold; for a
    hotel this keeps a [rooms_available] that differs from [rooms]. *)
Theorem to_dict_from_dict_roundtrip :
  (forall c : Customer.instance,
     Customer.from_dict (Customer.to_dict c) = Some c)
  /\ (forall h : Hotel.instance, Hotel.from_dict (Hotel.to_dict h) = Some h)
  /\ (forall r : Reservation.instance,
        Reservation.from_dict (Reservation.to_dict r) = Some r).
Proof.
  split; [|split].
  - intros [i n e]. reflexivity.
  - intros [i n l r a]. reflexivity.
  - intros [i c h]. reflexivity.
Qed.



(** ** Creating, finding and deleting records *)

Lemma create_customer_run (i n e : string) (f : file Customer.record)
    (records : list Customer.record) :
  loads f records ->
  Customer.create_customer i n e f
  = if falsy i || falsy n then (Val None, f)
    else if negb (Customer._validate_email e) then (Val None, f)
    else if existsb (Customer.has_id i) records then (Val None, f)
    else
      let customer :=
        {| Customer.customer_id := i; Customer.name := n;
           Customer.email := e |} in
      (Val (Some customer), Stored (records ++ [customer])).
Proof.
  intros H. unfold Customer.create_customer.
  destruct (falsy i || falsy n); [reflexivity|].
  destruct (negb (Customer._validate_email e)); [reflexivity|].
  unfold bind, Customer.load_all. rewrite (loads_run _ _ H).
  destruct (existsb (Customer.has_id i) records); reflexivity.
Qed.

Lemma create_customer_raises (i n e : string) (f : file Customer.record)
    (x : exn) :
  load_json f = (Exc x, f) ->
  Customer.create_customer i n e f = (Val None, f)
  \/ Customer.create_customer i n e f = (Exc x, f).
Proof.
  intros H. unfold Customer.create_customer.
  destruct (falsy i || falsy n); [left; reflexivity|].
  destruct (negb (Customer._validate_email e)); [left; reflexivity|].
  right. unfold bind, Customer.load_all. rewrite H. reflexivity.
Qed.

Lemma create_hotel_raises_or_none (i n loc : string) (k : py_value)
    (f : file Hotel.record) (x : exn) :
  load_json f = (Exc x, f) ->
  Hotel.create_hotel i n loc k f = (Val None, f)
  \/ Hotel.create_hotel i n loc k f = (Exc x, f).
Proof.
  intros H. unfold Hotel.create_hotel.
  destruct (falsy i || falsy n); [left; reflexivity|].
  destruct k as [z| |]; try (left; reflexivity).
  destruct (z <=? 0); [left; reflexivity|].
  right. unfold bind, Hotel.load_all. rewrite H. reflexivity.
Qed.

Lemma delete_customer_run (i : string) (f : file Customer.record)
    (records : list Customer.record) :
  loads f records ->
  Customer.delete_customer i f
  = if existsb (Customer.has_id i) records
    then (Val true,
          Stored (filter (fun r => negb (Customer.has_id i r)) records))
    else (Val false, f).
Proof.
  intros H. unfold Customer.delete_customer, bind, Customer.load_all.
  rewrite (loads_run _ _ H). simpl. rewrite same_length_iff_absent.
  destruct (existsb (Customer.has_id i) records); reflexivity.
Qed.

Lemma delete_customer_raises (i : string) (f : file Customer.record)
    (e : exn) :
  load_json f = (Exc e, f) -> Customer.delete_customer i f = (Exc e, f).
Proof.
  intros H. unfold Customer.delete_customer, bind, Customer.load_all.
  rewrite H. reflexivity.
Qed.

Lemma delete_hotel_by_presence (i : string) (f : file Hotel.record)
    (records : list Hotel.record) :
  loads f records ->
  Hotel.delete_hotel i f
  = if existsb (Hotel.has_id i) records
    then (Val true,
          Stored (filter (fun r => negb (Hotel.has_id i r)) records))
    else (Val false, f).
Proof.
  intros H. pose proof (delete_hotel_run i f records H) as Hrun.
  simpl in Hrun. rewrite Hrun, same_length_iff_absent.
  destruct (existsb (Hotel.has_id i) records); reflexivity.
Qed.

(** X3: on a customer file that loads, [create_customer] returns [None]
    and writes nothing when the id or the name is empty, the email is
    empty or has no ["@"], or a record already has the id; in every other
    case it returns the customer and the file holds the old records
    followed by the new one. *)
Theorem create_customer_exact (i n e : string) (f : file Customer.record)
    (records : list Customer.record) :
  loads f records ->
  let customer :=
    {| Customer.customer_id := i; Customer.name := n;
       Customer.email := e |} in
  let refused :=
    i = "" \/ n = "" \/ e = "" \/ contains "@"%char e = false
    \/ existsb (Customer.has_id i) records = true in
  (refused -> Customer.create_customer i n e f = (Val None, f))
  /\ (~ refused ->
      Customer.create_customer i n e f
      = (Val (Some customer), Stored (records ++ [customer]))).
Proof.
  intros Hl customer refused. subst refused.
  rewrite (create_customer_run _ _ _ _ _ Hl).
  destruct (falsy i) eqn:Ei; simpl.
  { apply falsy_empty in Ei. split; [reflexivity | tauto]. }
  destruct (falsy n) eqn:En; simpl.
  { apply falsy_empty in En. split; [reflexivity | tauto]. }
  destruct (Customer._validate_email e) eqn:Ee; simpl.
  2: { apply validate_email_false in Ee. split; [reflexivity | tauto]. }
  destruct (existsb (Customer.has_id i) records) eqn:Ex.
  { split; [reflexivity | tauto]. }
  split; [|reflexivity].
  intros [H | [H | [H | [H | H]]]].
  - apply falsy_empty in H. congruence.
  - apply falsy_empty in H. congruence.
  - assert (Customer._validate_email e = false)
      by (apply validate_email_false; auto). congruence.
  - assert (Customer._validate_email e = false)
      by (apply validate_email_false; auto). congruence.
  - discriminate.
Qed.

Lemma create_customer_exact_witness :
  Customer.create_customer "C2" "Eva" "eva@mail" (Faulty IOError)
  = (Val (Some {| Customer.customer_id := "C2"; Customer.name := "Eva";
                  Customer.email := "eva@mail" |}),
     Stored ([] ++ [{| Customer.customer_id := "C2"; Customer.name := "Eva";
                       Customer.email := "eva@mail" |}])).
Proof.
  apply (proj2 (create_customer_exact "C2" "Eva" "eva@mail"
                  (Faulty IOError) [] eq_refl)).
  intros [H | [H | [H | [H | H]]]]; discriminate H.
Defined.

(** X4: on a hotel file that loads, [create_hotel] returns [None] and
    writes nothing when the id or the name is empty, [rooms] is not an
    integer or is not positive, or a record already has the id; in every
    other case, an empty location included, it returns the hotel and the
    file holds the old records followed by the new one, whose
    [rooms_available] equals its [rooms]. *)
Theorem create_hotel_exact (i n loc : string) (k : py_value)
    (f : file Hotel.record) (records : list Hotel.record) :
  loads f records ->
  let refused :=
    i = "" \/ n = "" \/ (forall z, k = PyInt z -> z <= 0)
    \/ existsb (Hotel.has_id i) records = true in
  (refused -> Hotel.create_hotel i n loc k f = (Val None, f))
  /\ (~ refused ->
      exists z,
        k = PyInt z /\ 0 < z
        /\ Hotel.create_hotel i n loc k f
           = (Val (Some {| Hotel.hotel_id := i; Hotel.name := n;
                           Hotel.location := loc; Hotel.rooms := z;
                           Hotel.rooms_available := z |}),
              Stored (records
                      ++ [{| Hotel.hotel_id := i; Hotel.name := n;
                             Hotel.location := loc; Hotel.rooms := z;
                             Hotel.rooms_available := z |}]))).
Proof.
  intros Hl refused. subst refused.
  rewrite (create_hotel_run _ _ _ _ _ _ Hl).
  destruct (falsy i) eqn:Ei; simpl.
  { apply falsy_empty in Ei. split; [reflexivity | tauto]. }
  destruct (falsy n) eqn:En; simpl.
  { apply falsy_empty in En. split; [reflexivity | tauto]. }
  destruct k as [z| |].
  - destruct (z <=? 0) eqn:Ez.
    { apply Z.leb_le in Ez. split; [reflexivity|].
      intros H. exfalso. apply H. right; right; left.
      intros z' E. injection E as <-. exact Ez. }
    apply Z.leb_gt in Ez.
    destruct (existsb (Hotel.has_id i) records) eqn:Ex.
    { split; [reflexivity | tauto]. }
    split.
    + intros [H | [H | [H | H]]].
      * apply falsy_empty in H. congruence.
      * apply falsy_empty in H. congruence.
      * specialize (H z eq_refl). lia.
      * discriminate.
    + intros _. exists z. auto.
  - split; [reflexivity|]. intros H. exfalso. apply H.
    right; right; left. intros z E. discriminate E.
  - split; [reflexivity|]. intros H. exfalso. apply H.
    right; right; left. intros z E. discriminate E.
Qed.

Lemma create_hotel_exact_witness :
  Hotel.create_hotel "H2" "Plaza" "GDL" PyNone (Stored [grand])
  = (Val None, Stored [grand]).
Proof.
  apply (proj1 (create_hotel_exact "H2" "Plaza" "GDL" PyNone
                  (Stored [grand]) [grand] eq_refl)).
  right; right; left. intros z E. discriminate E.
Defined.

(** X5: whenever [create_hotel] returns a hotel, the file it leaves can
    be loaded, [display_hotel] on the same id returns that very record
    without writing, the record is the only one in the file with the id,
    and all its rooms, a positive number, are available. *)
Theorem created_hotel_is_found (i n loc : string) (k : py_value)
    (f : file Hotel.record) (h : Hotel.record) :
  fst (Hotel.create_hotel i n loc k f) = Val (Some h) ->
  let f' := snd (Hotel.create_hotel i n loc k f) in
  Hotel.display_hotel i f' = (Val (Some h), f')
  /\ (exists records',
        f' = Stored records' /\ filter (Hotel.has_id i) records' = [h])
  /\ Hotel.hotel_id h = i
  /\ 0 < Hotel.rooms h
  /\ Hotel.rooms_available h = Hotel.rooms h.
Proof.
  destruct (load_json_cases f) as [[l Hl] | [x Hx]].
  2: { destruct (create_hotel_raises_or_none i n loc k f x Hx) as [E | E];
       rewrite E; discriminate. }
  rewrite (create_hotel_run _ _ _ _ _ _ Hl).
  destruct (falsy i || falsy n); [discriminate|].
  destruct k as [z| |]; try discriminate.
  destruct (z <=? 0) eqn:Ez; [discriminate|]. apply Z.leb_gt in Ez.
  destruct (existsb (Hotel.has_id i) l) eqn:Ex; [discriminate|].
  simpl. intros H. injection H as <-.
  assert (Hm : Hotel.has_id i
                 {| Hotel.hotel_id := i; Hotel.name := n;
                    Hotel.location := loc; Hotel.rooms := z;
                    Hotel.rooms_available := z |} = true)
    by apply String.eqb_refl.
  repeat split; try assumption.
  - unfold Hotel.display_hotel, bind, Hotel.load_all. simpl.
    rewrite (find_after_append _ _ _ Ex Hm). reflexivity.
  - eexists. split; [reflexivity|]. exact (filter_after_append _ _ _ Ex Hm).
Qed.

Lemma created_hotel_is_found_witness :
  let f' := snd (Hotel.create_hotel "H1" "Grand" "CDMX" (PyInt 2) Missing) in
  Hotel.display_hotel "H1" f' = (Val (Some grand), f')
  /\ (exists records',
        f' = Stored records' /\ filter (Hotel.has_id "H1") records' = [grand])
  /\ Hotel.hotel_id grand = "H1"
  /\ 0 < Hotel.rooms grand
  /\ Hotel.rooms_available grand = Hotel.rooms grand.
Proof.
  apply (created_hotel_is_found "H1" "Grand" "CDMX" (PyInt 2) Missing grand).
  reflexivity.
Defined.

(** X6: whenever [create_customer] returns a customer, the file it leaves
    can be loaded, [display_customer] on the same id returns that very
    record without writing, and the record is the only one in the file
    with the id. *)
Theorem created_customer_is_found (i n e : string)
    (f : file Customer.record) (c : Customer.record) :
  fst (Customer.create_customer i n e f) = Val (Some c) ->
  let f' := snd (Customer.create_customer i n e f) in
  Customer.display_customer i f' = (Val (Some c), f')
  /\ (exists records',
        f' = Stored records' /\ filter (Customer.has_id i) records' = [c])
  /\ c = {| Customer.customer_id := i; Customer.name := n;
            Customer.email := e |}.
Proof.
  destruct (load_json_cases f) as [[l Hl] | [x Hx]].
  2: { destruct (create_customer_raises i n e f x Hx) as [E | E];
       rewrite E; discriminate. }
  rewrite (create_customer_run _ _ _ _ _ Hl).
  destruct (falsy i || falsy n); [discriminate|].
  destruct (negb (Customer._validate_email e)); [discriminate|].
  destruct (existsb (Customer.has_id i) l) eqn:Ex; [discriminate|].
  simpl. intros H. injection H as <-.
  assert (Hm : Customer.has_id i
                 {| Customer.customer_id := i; Customer.name := n;
                    Customer.email := e |} = true)
    by apply String.eqb_refl.
  repeat split.
  - unfold Customer.display_customer, bind, Customer.load_all. simpl.
    rewrite (find_after_append _ _ _ Ex Hm). reflexivity.
  - eexists. split; [reflexivity|]. exact (filter_after_append _ _ _ Ex Hm).
Qed.

Lemma created_customer_is_found_witness :
  let f' := snd (Customer.create_customer "C1" "Ana" "ana@mail.com"
                   (Stored [])) in
  Customer.display_customer "C1" f' = (Val (Some ana), f')
  /\ (exists records',
        f' = Stored records' /\ filter (Customer.has_id "C1") records' = [ana])
  /\ ana = {| Customer.customer_id := "C1"; Customer.name := "Ana";
              Customer.email := "ana@mail.com" |}.
Proof.
  apply (created_customer_is_found "C1" "Ana" "ana@mail.com" (Stored []) ana).
  reflexivity.
Defined.

(** X7: on a hotel file that loads, [delete_hotel] returns [False] and
    writes nothing when no record has the id.  When one has, it returns
    [True] and the file keeps, in their order, exactly the records with
    another id, so every record with the id is gone, also a repeated one;
    deleting the same id again then returns [False]. *)
Theorem delete_hotel_exact (i : string) (f : file Hotel.record)
    (records : list Hotel.record) :
  loads f records ->
  (existsb (Hotel.has_id i) records = false ->
   Hotel.delete_hotel i f = (Val false, f))
  /\ (existsb (Hotel.has_id i) records = true ->
      exists kept,
        Hotel.delete_hotel i f = (Val true, Stored kept)
        /\ kept = filter (fun r => negb (Hotel.has_id i r)) records
        /\ existsb (Hotel.has_id i) kept = false
        /\ (List.length kept < List.length records)%nat
        /\ Hotel.delete_hotel i (Stored kept) = (Val false, Stored kept)).
Proof.
  intros Hl. rewrite (delete_hotel_by_presence _ _ _ Hl). split.
  - intros ->. reflexivity.
  - intros Hex. rewrite Hex. eexists. split; [reflexivity|].
    split; [reflexivity|]. split; [apply existsb_filter_out|].
    split; [apply filter_out_shorter, Hex|].
    rewrite (delete_hotel_by_presence _ _ _ (loads_of_stored _)).
    rewrite existsb_filter_out. reflexivity.
Qed.

Lemma delete_hotel_exact_witness :
  exists kept,
    Hotel.delete_hotel "H1" (Stored [grand; Hotel.set_available 0 grand])
    = (Val true, Stored kept)
    /\ kept = filter (fun r => negb (Hotel.has_id "H1" r))
                [grand; Hotel.set_available 0 grand]
    /\ existsb (Hotel.has_id "H1") kept = false
    /\ (List.length kept < 2)%nat
    /\ Hotel.delete_hotel "H1" (Stored kept) = (Val false, Stored kept).
Proof.
  apply (proj2 (delete_hotel_exact "H1"
                  (Stored [grand; Hotel.set_available 0 grand])
                  [grand; Hotel.set_available 0 grand] eq_refl)).
  reflexivity.
Defined.

(** X8: the same for [delete_customer]: [False] and nothing written when
    no record has the id; otherwise [True], the records with another id
    kept in their order, none with the id left, and a second delete of the
    id returns [False]. *)
Theorem delete_customer_exact (i : string) (f : file Customer.record)
    (records : list Customer.record) :
  loads f records ->
  (existsb (Customer.has_id i) records = false ->
   Customer.delete_customer i f = (Val false, f))
  /\ (existsb (Customer.has_id i) records = true ->
      exists kept,
        Customer.delete_customer i f = (Val true, Stored kept)
        /\ kept = filter (fun r => negb (Customer.has_id i r)) records
        /\ existsb (Customer.has_id i) kept = false
        /\ (List.length kept < List.length records)%nat
        /\ Customer.delete_customer i (Stored kept)
           = (Val false, Stored kept)).
Proof.
  intros Hl. rewrite (delete_customer_run _ _ _ Hl). split.
  - intros ->. reflexivity.
  - intros Hex. rewrite Hex. eexists. split; [reflexivity|].
    split; [reflexivity|]. split; [apply existsb_filter_out|].
    split; [apply filter_out_shorter, Hex|].
    rewrite (delete_customer_run _ _ _ (loads_of_stored _)).
    rewrite existsb_filter_out. reflexivity.
Qed.

Lemma delete_customer_exact_witness :
  Customer.delete_customer "C9" (Stored [ana]) = (Val false, Stored [ana]).
Proof.
  apply (proj1 (delete_customer_exact "C9" (Stored [ana]) [ana] eq_refl)).
  reflexivity.
Defined.

(** X9: deleting a hotel right after a [create_hotel] that returned it
    gives back the records the file held before, in the same order; a file
    that did not exist before is left holding the empty list. *)
Theorem create_then_delete_hotel (i n loc : string) (k : py_value)
    (f : file Hotel.record) (records : list Hotel.record)
    (h : Hotel.record) :
  loads f records ->
  fst (Hotel.create_hotel i n loc k f) = Val (Some h) ->
  Hotel.delete_hotel i (snd (Hotel.create_hotel i n loc k f))
  = (Val true, Stored records).
Proof.
  intros Hl. rewrite (create_hotel_run _ _ _ _ _ _ Hl).
  destruct (falsy i || falsy n); [discriminate|].
  destruct k as [z| |]; try discriminate.
  destruct (z <=? 0); [discriminate|].
  destruct (existsb (Hotel.has_id i) records) eqn:Ex; [discriminate|].
  simpl. intros _.
  assert (Hm : Hotel.has_id i
                 {| Hotel.hotel_id := i; Hotel.name := n;
                    Hotel.location := loc; Hotel.rooms := z;
                    Hotel.rooms_available := z |} = true)
    by apply String.eqb_refl.
  rewrite (delete_hotel_by_presence _ _ _ (loads_of_stored _)).
  rewrite existsb_app, Ex. simpl. rewrite Hm. simpl.
  rewrite (filter_out_appended _ _ _ Ex Hm). reflexivity.
Qed.

Lemma create_then_delete_hotel_witness :
  Hotel.delete_hotel "H1"
    (snd (Hotel.create_hotel "H1" "Grand" "CDMX" (PyInt 2) Missing))
  = (Val true, Stored []).
Proof.
  apply (create_then_delete_hotel "H1" "Grand" "CDMX" (PyInt 2) Missing []
           grand); reflexivity.
Defined.

(** X10: deleting a customer right after a [create_customer] that
    returned it gives back the records the file held before, in the same
    order. *)
Theorem create_then_delete_customer (i n e : string)
    (f : file Customer.record) (records : list Customer.record)
    (c : Customer.record) :
  loads f records ->
  fst (Customer.create_customer i n e f) = Val (Some c) ->
  Customer.delete_customer i (snd (Customer.create_customer i n e f))
  = (Val true, Stored records).
Proof.
  intros Hl. rewrite (create_customer_run _ _ _ _ _ Hl).
  destruct (falsy i || falsy n); [discriminate|].
  destruct (negb (Customer._validate_email e)); [discriminate|].
  destruct (existsb (Customer.has_id i) records) eqn:Ex; [discriminate|].
  simpl. intros _.
  assert (Hm : Customer.has_id i
                 {| Customer.customer_id := i; Customer.name := n;
                    Customer.email := e |} = true)
    by apply String.eqb_refl.
  rewrite (delete_customer_run _ _ _ (loads_of_stored _)).
  rewrite existsb_app, Ex. simpl. rewrite Hm. simpl.
  rewrite (filter_out_appended _ _ _ Ex Hm). reflexivity.
Qed.

Lemma create_then_delete_customer_witness :
  Customer.delete_customer "C2"
    (snd (Customer.create_customer "C2" "Eva" "eva@mail.com" (Stored [ana])))
  = (Val true, Stored [ana]).
Proof.
  apply (create_then_delete_customer "C2" "Eva" "eva@mail.com" (Stored [ana])
           [ana] {| Customer.customer_id := "C2"; Customer.name := "Eva";
                    Customer.email := "eva@mail.com" |}); reflexivity.
Defined.

(** ** Unique ids *)

Section Keys.

Context {R : Type}.
Variable key : R -> string.
Variables (i : string) (p : R -> bool).
Hypothesis p_key : forall r, p r = String.eqb (key r) i.

Lemma absent_key (l : list R) :
  existsb p l = false -> ~ In i (map key l).
Proof.
  induction l as [|x l IH]; simpl; [tauto|].
  intros H. apply orb_false_iff in H as [Hx Hl].
  rewrite p_key in Hx. apply String.eqb_neq in Hx.
  intros [E | E]; [congruence | exact (IH Hl E)].
Qed.

Lemma unique_after_append (l : list R) (x : R) :
  NoDup (map key l) -> existsb p l = false -> key x = i ->
  NoDup (map key (l ++ [x])).
Proof.
  intros Hn Hl Hx. rewrite map_app. simpl.
  apply NoDup_app; [exact Hn | constructor; [intros [] | constructor] |].
  intros a Ha [E | []]. subst a. rewrite Hx in Ha.
  exact (absent_key _ Hl Ha).
Qed.

Lemma one_less_when_unique (l : list R) :
  NoDup (map key l) -> existsb p l = true ->
  S (List.length (filter (fun r => negb (p r)) l)) = List.length l.
Proof.
  induction l as [|x l IH]; simpl; [discriminate|].
  intros Hn H. inversion Hn as [|? ? Hx Hl]; subst.
  destruct (p x) eqn:Px; simpl.
  - f_equal. f_equal. apply filter_out_absent.
    destruct (existsb p l) eqn:E; [|reflexivity].
    exfalso. apply Hx. clear - E Px p_key.
    rewrite p_key in Px. apply String.eqb_eq in Px. rewrite Px.
    induction l as [|y l IH]; simpl in *; [discriminate|].
    apply orb_true_iff in E as [E | E].
    + rewrite p_key in E. apply String.eqb_eq in E. auto.
    + auto.
  - f_equal. apply IH; assumption.
Qed.

End Keys.

Lemma unique_after_filter {R : Type} (key : R -> string) (q : R -> bool)
    (l : list R) :
  NoDup (map key l) -> NoDup (map key (filter q l)).
Proof.
  induction l as [|x l IH]; simpl; [auto|].
  intros Hn. inversion Hn as [|? ? Hx Hl]; subst.
  destruct (q x); simpl; [|auto].
  constructor; [|auto].
  intros Hin. apply Hx. apply in_map_iff in Hin as (y & Hy & Hin).
  apply filter_In in Hin as [Hin _]. apply in_map_iff. eauto.
Qed.

(** What the loop body keeps of a record, the loop keeps of every record. *)
Lemma for_first_map {R S : Type} (g : R -> S) (p : R -> bool)
    (body : R -> option R) (l l' : list R) :
  (forall r r', body r = Some r' -> g r' = g r) ->
  for_first p body l = Updated l' -> map g l' = map g l.
Proof.
  intros Hbody. revert l'.
  induction l as [|x l IH]; simpl; intros l' H; [discriminate|].
  destruct (p x).
  - destruct (body x) as [x'|] eqn:Bx; [|discriminate].
    injection H as <-. simpl. rewrite (Hbody _ _ Bx). reflexivity.
  - destruct (for_first p body l) as [| |m]; try discriminate.
    injection H as <-. simpl. rewrite (IH m eq_refl). reflexivity.
Qed.

Lemma unique_loads {R : Type} (key : R -> string) (f : file R)
    (records : list R) :
  unique key f -> loads f records -> NoDup (map key records).
Proof.
  intros Hu Hl. destruct records as [|r records]; [constructor|].
  apply Hu, (loads_stored _ _ _ Hl).
Qed.

Lemma unique_stored {R : Type} (key : R -> string) (records : list R) :
  NoDup (map key records) -> unique key (Stored records).
Proof. intros H l E. injection E as <-. exact H. Qed.

Lemma scan_and_save_unique {R : Type} (key : R -> string) (p : R -> bool)
    (body : R -> option R) (f : file R) :
  (forall r r', body r = Some r' -> key r' = key r) ->
  unique key f -> unique key (snd (scan_and_save p body f)).
Proof.
  intros Hbody Hf.
  destruct (load_json_cases f) as [[l Hl] | [e He]].
  - rewrite (scan_and_save_run _ _ _ _ Hl).
    destruct (for_first p body l) as [| |l'] eqn:E; simpl; try exact Hf.
    apply unique_stored. rewrite (for_first_map key _ _ _ _ Hbody E).
    exact (unique_loads _ _ _ Hf Hl).
  - rewrite (scan_and_save_raises _ _ _ _ He). exact Hf.
Qed.

Lemma hotel_modify_keeps_id (kw : Hotel.kwargs) (r r' : Hotel.record) :
  Hotel.modify_body kw r = Some r' -> Hotel.hotel_id r' = Hotel.hotel_id r.
Proof.
  unfold Hotel.modify_body.
  destruct (Hotel.kw_rooms kw) as [[z| |]|]; simpl; try discriminate.
  - destruct (z <=? 0); simpl; [discriminate|].
    intros H. injection H as <-. reflexivity.
  - intros H. injection H as <-. reflexivity.
Qed.

Lemma hotel_reserve_keeps_id (r r' : Hotel.record) :
  Hotel.reserve_body r = Some r' -> Hotel.hotel_id r' = Hotel.hotel_id r.
Proof.
  unfold Hotel.reserve_body.
  destruct (Hotel.rooms_available r <=? 0); [discriminate|].
  intros H. injection H as <-. reflexivity.
Qed.

Lemma hotel_cancel_keeps_id (r r' : Hotel.record) :
  Hotel.cancel_body r = Some r' -> Hotel.hotel_id r' = Hotel.hotel_id r.
Proof.
  unfold Hotel.cancel_body.
  destruct (Hotel.rooms r <=? Hotel.rooms_available r); [discriminate|].
  intros H. injection H as <-. reflexivity.
Qed.

Lemma customer_modify_keeps_id (kw : Customer.kwargs)
    (r r' : Customer.record) :
  Customer.modify_body kw r = Some r' ->
  Customer.customer_id r' = Customer.customer_id r.
Proof.
  unfold Customer.modify_body.
  destruct (Customer.kw_email kw) as [e|].
  - destruct (negb (Customer._validate_email e)); [discriminate|].
    intros H. injection H as <-. reflexivity.
  - intros H. injection H as <-. reflexivity.
Qed.

(** X11: a hotel file in which no two records share a [hotel_id] is still
    such a file after [create_hotel], [modify_hotel], [reserve_room],
    [cancel_reservation] or [delete_hotel], whatever the arguments and
    whether the call succeeds, fails or raises. *)
Theorem hotel_ids_stay_unique (c : hotel_call) (f : file Hotel.record) :
  unique Hotel.hotel_id f -> unique Hotel.hotel_id (after c f).
Proof.
  intros Hf. destruct c as [i n loc k | i kw | i | i | i]; simpl.
  - destruct (load_json_cases f) as [[l Hl] | [e He]].
    + rewrite (create_hotel_run _ _ _ _ _ _ Hl).
      destruct (falsy i || falsy n); [exact Hf|].
      destruct k as [z| |]; try exact Hf.
      destruct (z <=? 0); [exact Hf|].
      destruct (existsb (Hotel.has_id i) l) eqn:Ex; [exact Hf|].
      simpl. apply unique_stored.
      apply (unique_after_append Hotel.hotel_id i (Hotel.has_id i));
        [reflexivity | exact (unique_loads _ _ _ Hf Hl) | exact Ex
        | reflexivity].
    + rewrite (create_hotel_raises _ _ _ _ _ _ He). exact Hf.
  - rewrite modify_hotel_scan.
    apply scan_and_save_unique; [apply hotel_modify_keeps_id | exact Hf].
  - rewrite reserve_room_scan.
    apply scan_and_save_unique; [apply hotel_reserve_keeps_id | exact Hf].
  - rewrite hotel_cancel_scan.
    apply scan_and_save_unique; [apply hotel_cancel_keeps_id | exact Hf].
  - destruct (load_json_cases f) as [[l Hl] | [e He]].
    + rewrite (delete_hotel_by_presence _ _ _ Hl).
      destruct (existsb (Hotel.has_id i) l); [|exact Hf].
      simpl. apply unique_stored, unique_after_filter.
      exact (unique_loads _ _ _ Hf Hl).
    + rewrite (delete_hotel_raises _ _ _ He). exact Hf.
Qed.

Lemma hotel_ids_stay_unique_witness :
  unique Hotel.hotel_id (Stored [grand])
  /\ unique Hotel.hotel_id
       (after (CreateHotel "H2" "Plaza" "GDL" (PyInt 5)) (Stored [grand])).
Proof.
  assert (H : unique Hotel.hotel_id (Stored [grand])).
  { apply unique_stored. simpl. constructor; [intros [] | constructor]. }
  split; [exact H|].
  apply (hotel_ids_stay_unique _ _ H).
Defined.

(** X12: a customer file in which no two records share a [customer_id] is
    still such a file after [create_customer], [modify_customer] or
    [delete_customer], whatever the arguments and the outcome. *)
Theorem customer_ids_stay_unique (c : customer_call)
    (f : file Customer.record) :
  unique Customer.customer_id f ->
  unique Customer.customer_id (after_customer c f).
Proof.
  intros Hf. destruct c as [i n e | i kw | i]; simpl.
  - destruct (load_json_cases f) as [[l Hl] | [x Hx]].
    + rewrite (create_customer_run _ _ _ _ _ Hl).
      destruct (falsy i || falsy n); [exact Hf|].
      destruct (negb (Customer._validate_email e)); [exact Hf|].
      destruct (existsb (Customer.has_id i) l) eqn:Ex; [exact Hf|].
      simpl. apply unique_stored.
      apply (unique_after_append Customer.customer_id i (Customer.has_id i));
        [reflexivity | exact (unique_loads _ _ _ Hf Hl) | exact Ex
        | reflexivity].
    + destruct (create_customer_raises i n e f x Hx) as [E | E];
        rewrite E; exact Hf.
  - rewrite modify_customer_scan.
    apply scan_and_save_unique; [apply customer_modify_keeps_id | exact Hf].
  - destruct (load_json_cases f) as [[l Hl] | [x Hx]].
    + rewrite (delete_customer_run _ _ _ Hl).
      destruct (existsb (Customer.has_id i) l); [|exact Hf].
      simpl. apply unique_stored, unique_after_filter.
      exact (unique_loads _ _ _ Hf Hl).
    + rewrite (delete_customer_raises _ _ _ Hx). exact Hf.
Qed.

Lemma customer_ids_stay_unique_witness :
  unique Customer.customer_id (Stored [ana])
  /\ unique Customer.customer_id
       (after_customer (CreateCustomer "C2" "Eva" "eva@mail.com")
          (Stored [ana])).
Proof.
  assert (H : unique Customer.customer_id (Stored [ana])).
  { apply unique_stored. simpl. constructor; [intros [] | constructor]. }
  split; [exact H|].
  apply (customer_ids_stay_unique _ _ H).
Defined.

(** X13: in a hotel file with unique ids, a [delete_hotel] that returns
    [True] removes exactly one record; the same holds of
    [delete_customer] in a customer file with unique ids. *)
Theorem delete_removes_one_when_unique :
  (forall i f records,
     loads f records -> NoDup (map Hotel.hotel_id records) ->
     fst (Hotel.delete_hotel i f) = Val true ->
     exists kept,
       snd (Hotel.delete_hotel i f) = Stored kept
       /\ S (List.length kept) = List.length records)
  /\ (forall i f records,
        loads f records -> NoDup (map Customer.customer_id records) ->
        fst (Customer.delete_customer i f) = Val true ->
        exists kept,
          snd (Customer.delete_customer i f) = Stored kept
          /\ S (List.length kept) = List.length records).
Proof.
  split; intros i f records Hl Hn.
  - rewrite (delete_hotel_by_presence _ _ _ Hl).
    destruct (existsb (Hotel.has_id i) records) eqn:Ex; [|discriminate].
    intros _. eexists. split; [reflexivity|].
    apply (one_less_when_unique Hotel.hotel_id i (Hotel.has_id i));
      [reflexivity | exact Hn | exact Ex].
  - rewrite (delete_customer_run _ _ _ Hl).
    destruct (existsb (Customer.has_id i) records) eqn:Ex; [|discriminate].
    intros _. eexists. split; [reflexivity|].
    apply (one_less_when_unique Customer.customer_id i (Customer.has_id i));
      [reflexivity | exact Hn | exact Ex].
Qed.

Lemma delete_removes_one_when_unique_witness :
  exists kept,
    snd (Hotel.delete_hotel "H1" (Stored [grand])) = Stored kept
    /\ S (List.length kept) = List.length [grand].
Proof.
  apply (proj1 delete_removes_one_when_unique "H1" (Stored [grand]) [grand]).
  - reflexivity.
  - simpl. constructor; [intros [] | constructor].
  - reflexivity.
Defined.

(** ** Modifying records *)

(** X14: when the [rooms] keyword is not an integer or is not positive,
    [modify_hotel] never returns [True] and writes nothing, even when
    valid [name] and [location] keywords come with it and whether or not
    the hotel is on file. *)
Theorem modify_hotel_bad_rooms (i : string) (kw : Hotel.kwargs)
    (f : file Hotel.record) (value : py_value) :
  Hotel.kw_rooms kw = Some value ->
  (forall z, value = PyInt z -> z <= 0) ->
  fst (Hotel.modify_hotel i kw f) <> Val true
  /\ snd (Hotel.modify_hotel i kw f) = f.
Proof.
  intros Hkw Hbad. rewrite modify_hotel_scan.
  destruct (load_json_cases f) as [[l Hl] | [e He]].
  2: { rewrite (scan_and_save_raises _ _ _ _ He). split;
       [discriminate | reflexivity]. }
  rewrite (scan_and_save_run _ _ _ _ Hl).
  assert (Hbody : forall r, Hotel.modify_body kw r = None).
  { intros r. unfold Hotel.modify_body. rewrite Hkw.
    destruct value as [z| |]; simpl; try reflexivity.
    pose proof (Hbad z eq_refl) as Hz. apply Z.leb_le in Hz.
    rewrite Hz. reflexivity. }
  destruct (for_first (Hotel.has_id i) (Hotel.modify_body kw) l)
    as [| |l'] eqn:E; simpl; try (split; [discriminate | reflexivity]).
  exfalso. clear - E Hbody.
  revert l' E. induction l as [|x l IH]; simpl; intros l' E;
    [discriminate|].
  destruct (Hotel.has_id i x).
  - rewrite Hbody in E. discriminate.
  - destruct (for_first (Hotel.has_id i) (Hotel.modify_body kw) l)
      as [| |m]; try discriminate. exact (IH m eq_refl).
Qed.

Lemma modify_hotel_bad_rooms_witness :
  let kw := {| Hotel.kw_name := Some "Plaza"; Hotel.kw_location := None;
               Hotel.kw_rooms := Some (PyInt 0); Hotel.kw_other := [] |} in
  fst (Hotel.modify_hotel "H1" kw (Stored [grand])) <> Val true
  /\ snd (Hotel.modify_hotel "H1" kw (Stored [grand])) = Stored [grand].
Proof.
  intros kw.
  apply (modify_hotel_bad_rooms "H1" kw (Stored [grand]) (PyInt 0)).
  - reflexivity.
  - intros z E. injection E as <-. lia.
Defined.

(** X15: a rooms change keeps the number of taken rooms, capped at the
    new capacity: after [modify_hotel] with [rooms=n], [n] positive, the
    record has [rooms - rooms_available = min n (old rooms - old
    rooms_available)], whatever the counts were before. *)
Theorem modify_hotel_keeps_occupied (i : string) (kw : Hotel.kwargs)
    (f : file Hotel.record) (records : list Hotel.record)
    (h : Hotel.record) (n : Z) :
  loads f records ->
  lookup (Hotel.has_id i) records = Some h ->
  Hotel.kw_rooms kw = Some (PyInt n) ->
  0 < n ->
  exists pre post h',
    records = pre ++ h :: post
    /\ existsb (Hotel.has_id i) pre = false
    /\ Hotel.modify_hotel i kw f = (Val true, Stored (pre ++ h' :: post))
    /\ occupied h' = Z.min n (occupied h).
Proof.
  intros Hl Hfind Hkw Hn.
  destruct (find_split _ _ _ Hfind) as (pre & post & -> & Hpre & Hh).
  assert (Hbody : Hotel.modify_body kw h
                  = Some (Hotel.assign kw (Some n)
                            (Hotel.set_available
                               (Z.max 0 (Hotel.rooms_available h
                                         + (n - Hotel.rooms h))) h))).
  { unfold Hotel.modify_body. rewrite Hkw. simpl.
    destruct (n <=? 0) eqn:E; [apply Z.leb_le in E; lia | reflexivity]. }
  eexists pre, post, _. split; [reflexivity|]. split; [exact Hpre|]. split.
  - rewrite modify_hotel_scan, (scan_and_save_run _ _ _ _ Hl).
    rewrite (for_first_at _ _ _ _ _ Hpre Hh), Hbody. reflexivity.
  - unfold occupied. simpl. lia.
Qed.

Lemma modify_hotel_keeps_occupied_witness :
  let taken := Hotel.set_available 0 grand in
  exists pre post h',
    [taken] = pre ++ taken :: post
    /\ existsb (Hotel.has_id "H1") pre = false
    /\ Hotel.modify_hotel "H1"
         {| Hotel.kw_name := None; Hotel.kw_location := None;
            Hotel.kw_rooms := Some (PyInt 1); Hotel.kw_other := [] |}
         (Stored [taken])
       = (Val true, Stored (pre ++ h' :: post))
    /\ occupied h' = Z.min 1 (occupied taken).
Proof.
  intros taken.
  apply (modify_hotel_keeps_occupied "H1"
           {| Hotel.kw_name := None; Hotel.kw_location := None;
              Hotel.kw_rooms := Some (PyInt 1); Hotel.kw_other := [] |}
           (Stored [taken]) [taken] taken 1).
  - reflexivity.
  - reflexivity.
  - reflexivity.
  - lia.
Defined.

Lemma hotel_modify_body_twice (kw : Hotel.kwargs) (r r' : Hotel.record) :
  Hotel.modify_body kw r = Some r' -> Hotel.modify_body kw r' = Some r'.
Proof.
  unfold Hotel.modify_body.
  destruct (Hotel.kw_rooms kw) as [[z| |]|] eqn:Hkw; simpl; try discriminate.
  - destruct (z <=? 0) eqn:Ez; simpl; [discriminate|].
    intros H. injection H as <-. unfold Hotel.assign, Hotel.set_available.
    simpl. f_equal. f_equal; try (destruct (Hotel.kw_name kw); reflexivity);
      try (destruct (Hotel.kw_location kw); reflexivity).
    lia.
  - intros H. injection H as <-. unfold Hotel.assign. simpl.
    f_equal. f_equal; try (destruct (Hotel.kw_name kw); reflexivity);
      try (destruct (Hotel.kw_location kw); reflexivity).
Qed.

Lemma customer_modify_body_twice (kw : Customer.kwargs)
    (r r' : Customer.record) :
  Customer.modify_body kw r = Some r' ->
  Customer.modify_body kw r' = Some r'.
Proof.
  unfold Customer.modify_body.
  destruct (Customer.kw_email kw) as [e|] eqn:Hkw.
  - destruct (negb (Customer._validate_email e)); [discriminate|].
    intros H. injection H as <-. unfold Customer.assign. simpl.
    rewrite Hkw. f_equal. f_equal.
    destruct (Customer.kw_name kw); reflexivity.
  - intros H. injection H as <-. unfold Customer.assign. simpl.
    rewrite Hkw. f_equal. f_equal.
    destruct (Customer.kw_name kw); reflexivity.
Qed.

(** A loop whose body changes nothing the second time and keeps a record
    matching gives the same list when run on its own result. *)
Lemma for_first_twice {R : Type} (p : R -> bool) (body : R -> option R)
    (l l' : list R) :
  (forall r r', body r = Some r' -> body r' = Some r') ->
  (forall r r', p r = true -> body r = Some r' -> p r' = true) ->
  for_first p body l = Updated l' -> for_first p body l' = Updated l'.
Proof.
  intros Hb Hp. revert l'.
  induction l as [|x l IH]; simpl; intros l' H; [discriminate|].
  destruct (p x) eqn:Px.
  - destruct (body x) as [x'|] eqn:Bx; [|discriminate].
    injection H as <-. simpl.
    rewrite (Hp _ _ Px Bx), (Hb _ _ Bx). reflexivity.
  - destruct (for_first p body l) as [| |m]; try discriminate.
    injection H as <-. simpl. rewrite Px, (IH m eq_refl). reflexivity.
Qed.

Lemma scan_and_save_twice {R : Type} (p : R -> bool) (body : R -> option R)
    (f : file R) :
  (forall r r', body r = Some r' -> body r' = Some r') ->
  (forall r r', p r = true -> body r = Some r' -> p r' = true) ->
  scan_and_save p body (snd (scan_and_save p body f))
  = scan_and_save p body f.
Proof.
  intros Hb Hp.
  destruct (load_json_cases f) as [[l Hl] | [e He]].
  - rewrite (scan_and_save_run _ _ _ _ Hl).
    destruct (for_first p body l) as [| |l'] eqn:E; simpl.
    + rewrite (scan_and_save_run _ _ _ _ Hl), E. reflexivity.
    + rewrite (scan_and_save_run _ _ _ _ Hl), E. reflexivity.
    + rewrite (scan_and_save_run _ _ _ _ (loads_of_stored _)).
      rewrite (for_first_twice _ _ _ _ Hb Hp E). reflexivity.
  - rewrite (scan_and_save_raises _ _ _ _ He). simpl.
    apply (scan_and_save_raises _ _ _ _ He).
Qed.

(** X16: [modify_hotel] and [modify_customer] are idempotent: the same
    call made again on the file the first one left returns what the first
    returned and leaves the file as the first left it.  For hotels this
    holds for a [rooms] keyword too, the second call seeing no change of
    capacity. *)
Theorem modify_twice_is_modify_once :
  (forall i kw f,
     Hotel.modify_hotel i kw (snd (Hotel.modify_hotel i kw f))
     = Hotel.modify_hotel i kw f)
  /\ (forall i kw f,
        Customer.modify_customer i kw (snd (Customer.modify_customer i kw f))
        = Customer.modify_customer i kw f).
Proof.
  split; intros i kw f.
  - rewrite modify_hotel_scan. apply scan_and_save_twice.
    + apply hotel_modify_body_twice.
    + intros r r' Hr Hb. unfold Hotel.has_id in *.
      rewrite (hotel_modify_keeps_id _ _ _ Hb). exact Hr.
  - rewrite modify_customer_scan. apply scan_and_save_twice.
    + apply customer_modify_body_twice.
    + intros r r' Hr Hb. unfold Customer.has_id in *.
      rewrite (customer_modify_keeps_id _ _ _ Hb). exact Hr.
Qed.

(** X17: [modify_hotel] without a [rooms] keyword changes no id, no
    [rooms] and no [rooms_available] of any record, and
    [modify_customer] changes no id of any record, whatever else the
    keywords hold. *)
Theorem modify_keeps_ids_and_counts :
  (forall i kw f records,
     loads f records -> Hotel.kw_rooms kw = None ->
     exists records',
       loads (snd (Hotel.modify_hotel i kw f)) records'
       /\ map (fun r => (Hotel.hotel_id r, Hotel.rooms r,
                         Hotel.rooms_available r)) records'
          = map (fun r => (Hotel.hotel_id r, Hotel.rooms r,
                           Hotel.rooms_available r)) records)
  /\ (forall i kw f records,
        loads f records ->
        exists records',
          loads (snd (Customer.modify_customer i kw f)) records'
          /\ map Customer.customer_id records'
             = map Customer.customer_id records).
Proof.
  split.
  - intros i kw f records Hl Hkw.
    rewrite modify_hotel_scan, (scan_and_save_run _ _ _ _ Hl).
    destruct (for_first (Hotel.has_id i) (Hotel.modify_body kw) records)
      as [| |l'] eqn:E; simpl; try (exists records; split; [exact Hl | reflexivity]).
    exists l'. split; [reflexivity|].
    refine (for_first_map _ _ _ _ _ _ E).
    intros r r' Hb. unfold Hotel.modify_body in Hb. rewrite Hkw in Hb.
    injection Hb as <-. reflexivity.
  - intros i kw f records Hl.
    rewrite modify_customer_scan, (scan_and_save_run _ _ _ _ Hl).
    destruct (for_first (Customer.has_id i) (Customer.modify_body kw) records)
      as [| |l'] eqn:E; simpl; try (exists records; split; [exact Hl | reflexivity]).
    exists l'. split; [reflexivity|].
    exact (for_first_map _ _ _ _ _ (customer_modify_keeps_id kw) E).
Qed.

Lemma modify_keeps_ids_and_counts_witness :
  exists records',
    loads (snd (Hotel.modify_hotel "H1"
                  {| Hotel.kw_name := Some "Plaza";
                     Hotel.kw_location := Some "GDL";
                     Hotel.kw_rooms := None; Hotel.kw_other := [] |}
                  (Stored [grand]))) records'
    /\ map (fun r => (Hotel.hotel_id r, Hotel.rooms r,
                      Hotel.rooms_available r)) records'
       = map (fun r => (Hotel.hotel_id r, Hotel.rooms r,
                        Hotel.rooms_available r)) [grand].
Proof.
  apply (proj1 modify_keeps_ids_and_counts "H1"
           {| Hotel.kw_name := Some "Plaza"; Hotel.kw_location := Some "GDL";
              Hotel.kw_rooms := None; Hotel.kw_other := [] |}
           (Stored [grand]) [grand]); reflexivity.
Defined.

(** ** Reserving and releasing rooms *)

(** X18: when the first record with the id has
    [0 <= rooms_available < rooms], [Hotel.cancel_reservation] returns
    [True], [reserve_room] on the file it wrote returns [True] too, and the
    file is then the original one. *)
Theorem release_then_reserve_restores (i : string) (f : file Hotel.record)
    (records : list Hotel.record) (h : Hotel.record) :
  loads f records ->
  lookup (Hotel.has_id i) records = Some h ->
  0 <= Hotel.rooms_available h < Hotel.rooms h ->
  exists f1,
    Hotel.cancel_reservation i f = (Val true, f1)
    /\ Hotel.reserve_room i f1 = (Val true, f).
Proof.
  intros Hl Hfind [Hge Hlt].
  destruct (find_split _ _ _ Hfind) as (pre & post & -> & Hpre & Hh).
  assert (Hf : f = Stored (pre ++ h :: post)).
  { destruct pre; exact (loads_stored _ _ _ Hl). }
  set (h1 := Hotel.set_available (Hotel.rooms_available h + 1) h).
  exists (Stored (pre ++ h1 :: post)). split.
  - rewrite hotel_cancel_scan, (scan_and_save_run _ _ _ _ Hl).
    rewrite (for_first_at _ _ _ _ _ Hpre Hh). unfold Hotel.cancel_body.
    destruct (Hotel.rooms h <=? Hotel.rooms_available h) eqn:E.
    + apply Z.leb_le in E. lia.
    + reflexivity.
  - rewrite reserve_room_scan.
    rewrite (scan_and_save_run _ _ _ _ (loads_of_stored _)).
    rewrite (for_first_at _ _ _ _ h1 Hpre Hh). unfold Hotel.reserve_body.
    destruct (Hotel.rooms_available h1 <=? 0) eqn:E.
    + apply Z.leb_le in E. simpl in E. lia.
    + subst h1. rewrite set_available_twice, set_available_same, Hf.
      * reflexivity.
      * simpl. lia.
Qed.

Lemma release_then_reserve_restores_witness :
  let taken := Hotel.set_available 1 grand in
  exists f1,
    Hotel.cancel_reservation "H1" (Stored [taken]) = (Val true, f1)
    /\ Hotel.reserve_room "H1" f1 = (Val true, Stored [taken]).
Proof.
  intros taken.
  apply (release_then_reserve_restores "H1" (Stored [taken]) [taken] taken).
  - reflexivity.
  - reflexivity.
  - simpl. lia.
Defined.

Lemma reserve_times_at (k : nat) (i : string) (pre post : list Hotel.record)
    (h : Hotel.record) :
  existsb (Hotel.has_id i) pre = false ->
  Hotel.has_id i h = true ->
  Z.of_nat k <= Hotel.rooms_available h ->
  reserve_times k i (Stored (pre ++ h :: post))
  = Stored (pre
            ++ Hotel.set_available (Hotel.rooms_available h - Z.of_nat k) h
            :: post).
Proof.
  intros Hpre. revert h.
  induction k as [|k IH]; intros h Hh Hk.
  - simpl. rewrite set_available_same; [reflexivity | lia].
  - simpl reserve_times. rewrite reserve_room_scan.
    rewrite (scan_and_save_run _ _ _ _ (loads_of_stored _)).
    rewrite (for_first_at _ _ _ _ _ Hpre Hh). unfold Hotel.reserve_body.
    destruct (Hotel.rooms_available h <=? 0) eqn:E.
    + apply Z.leb_le in E. lia.
    + simpl snd. rewrite IH.
      * rewrite set_available_twice. simpl Hotel.rooms_available.
        replace (Hotel.rooms_available h - 1 - Z.of_nat k)
          with (Hotel.rooms_available h - Z.of_nat (S k)) by lia.
        reflexivity.
      * exact Hh.
      * simpl. lia.
Qed.

(** X19: a hotel whose first record with the id has [a >= 0] rooms
    available takes exactly [a] reservations: each of the first [a] calls
    of [reserve_room] returns [True], the count then stands at 0 with
    [rooms] and every other record untouched, and the next call returns
    [False] and writes nothing. *)
Theorem reserve_until_full (i : string) (f : file Hotel.record)
    (records : list Hotel.record) (h : Hotel.record) :
  loads f records ->
  lookup (Hotel.has_id i) records = Some h ->
  0 <= Hotel.rooms_available h ->
  let a := Z.to_nat (Hotel.rooms_available h) in
  (forall k, (k < a)%nat ->
             fst (Hotel.reserve_room i (reserve_times k i f)) = Val true)
  /\ (exists pre post,
        records = pre ++ h :: post
        /\ existsb (Hotel.has_id i) pre = false
        /\ reserve_times a i f
           = Stored (pre ++ Hotel.set_available 0 h :: post))
  /\ Hotel.reserve_room i (reserve_times a i f)
     = (Val false, reserve_times a i f).
Proof.
  intros Hl Hfind Hge a.
  destruct (find_split _ _ _ Hfind) as (pre & post & -> & Hpre & Hh).
  assert (Hf : f = Stored (pre ++ h :: post)).
  { destruct pre; exact (loads_stored _ _ _ Hl). }
  subst f.
  assert (Hfull : reserve_times a i (Stored (pre ++ h :: post))
                  = Stored (pre ++ Hotel.set_available 0 h :: post)).
  { rewrite (reserve_times_at a i pre post h Hpre Hh) by (subst a; lia).
    replace (Hotel.rooms_available h - Z.of_nat a) with 0
      by (subst a; lia).
    reflexivity. }
  split; [|split].
  - intros k Hk.
    rewrite (reserve_times_at k i pre post h Hpre Hh) by (subst a; lia).
    rewrite reserve_room_scan.
    rewrite (scan_and_save_run _ _ _ _ (loads_of_stored _)).
    rewrite (for_first_at _ _ _ _ (Hotel.set_available _ h) Hpre Hh).
    unfold Hotel.reserve_body. simpl Hotel.rooms_available.
    destruct (Hotel.rooms_available h - Z.of_nat k <=? 0) eqn:E.
    + apply Z.leb_le in E. subst a. lia.
    + reflexivity.
  - exists pre, post. auto.
  - rewrite Hfull, reserve_room_scan.
    rewrite (scan_and_save_run _ _ _ _ (loads_of_stored _)).
    rewrite (for_first_at _ _ _ _ (Hotel.set_available 0 h) Hpre Hh).
    reflexivity.
Qed.

Lemma reserve_until_full_witness :
  (forall k, (k < 2)%nat ->
             fst (Hotel.reserve_room "H1"
                    (reserve_times k "H1" (Stored [grand]))) = Val true)
  /\ (exists pre post,
        [grand] = pre ++ grand :: post
        /\ existsb (Hotel.has_id "H1") pre = false
        /\ reserve_times 2 "H1" (Stored [grand])
           = Stored (pre ++ Hotel.set_available 0 grand :: post))
  /\ Hotel.reserve_room "H1" (reserve_times 2 "H1" (Stored [grand]))
     = (Val false, reserve_times 2 "H1" (Stored [grand])).
Proof.
  apply (reserve_until_full "H1" (Stored [grand]) [grand] grand).
  - reflexivity.
  - reflexivity.
  - simpl. lia.
Defined.

(** ** Reservations across the three files *)

(** The ways a [create_reservation] can end: with no file written and
    [None] or an exception, or with the reservation appended and the
    hotel file as [reserve_room] rewrote it. *)
Lemma create_reservation_shapes (i c h : string) (w : Reservation.World) :
  (exists x,
     Reservation.create_reservation i c h w = (x, w)
     /\ (x = Val None \/ exists e, x = Exc e))
  \/ (exists records hotels hotels',
        loads (Reservation.file_path w) records
        /\ loads (Reservation.hotel_file w) hotels
        /\ existsb (Reservation.has_id i) records = false
        /\ for_first (Hotel.has_id h) Hotel.reserve_body hotels
           = Updated hotels'
        /\ Reservation.create_reservation i c h w
           = (Val (Some {| Reservation.reservation_id := i;
                           Reservation.customer_id := c;
                           Reservation.hotel_id := h |}),
              {| Reservation.file_path :=
                   Stored (records
                           ++ [{| Reservation.reservation_id := i;
                                  Reservation.customer_id := c;
                                  Reservation.hotel_id := h |}]);
                 Reservation.hotel_file := Stored hotels';
                 Reservation.customer_file :=
                   Reservation.customer_file w |})).
Proof.
  remember (Reservation.create_reservation i c h w) as out eqn:E.
  unfold Reservation.create_reservation in E.
  destruct (falsy i); [left; exists (Val None); subst out; auto|].
  unfold bind at 1 in E. unfold Reservation.load_all in E.
  rewrite (zoom_load_json _ _ set_file_path_same) in E.
  destruct (fst (load_json (Reservation.file_path w)))
    as [records|e] eqn:Er;
    [|left; exists (Exc e); subst out; eauto].
  destruct (existsb (Reservation.has_id i) records) eqn:Ex;
    [left; exists (Val None); subst out; auto|].
  unfold bind at 1 in E. unfold Customer.load_all in E.
  rewrite (zoom_load_json _ _ set_customer_file_same) in E.
  destruct (fst (load_json (Reservation.customer_file w)))
    as [customers|e] eqn:Ec;
    [|left; exists (Exc e); subst out; eauto].
  destruct (negb (existsb (Customer.has_id c) customers));
    [left; exists (Val None); subst out; auto|].
  unfold bind at 1 in E. unfold Hotel.load_all in E.
  rewrite (zoom_load_json _ _ set_hotel_file_same) in E.
  destruct (fst (load_json (Reservation.hotel_file w)))
    as [hotels|e] eqn:Eh;
    [|left; exists (Exc e); subst out; eauto].
  destruct (negb (existsb (Hotel.has_id h) hotels));
    [left; exists (Val None); subst out; auto|].
  unfold bind at 1 in E. rewrite reserve_room_scan in E.
  rewrite (zoom_scan_and_save _ _ set_hotel_file_same _ _ _ _ Eh) in E.
  destruct (for_first (Hotel.has_id h) Hotel.reserve_body hotels)
    as [| |hotels'] eqn:Ef;
    try (left; exists (Val None); subst out; auto; fail).
  right. exists records, hotels, hotels'. subst out.
  repeat split; auto.
Qed.

(** The ways a [cancel_reservation] can end: with no file written and
    [False] or an exception, or with the reservation file rewritten and
    the hotel file as [Hotel.cancel_reservation] left it. *)
Lemma cancel_reservation_shapes (i : string) (w : Reservation.World) :
  (exists x,
     Reservation.cancel_reservation i w = (x, w)
     /\ (x = Val false \/ exists e, x = Exc e))
  \/ (exists records target hotels,
        loads (Reservation.file_path w) records
        /\ lookup (Reservation.has_id i) records = Some target
        /\ loads (Reservation.hotel_file w) hotels
        /\ Reservation.cancel_reservation i w
           = (Val true,
              {| Reservation.file_path := Stored (without i records);
                 Reservation.hotel_file :=
                   snd (Hotel.cancel_reservation
                          (Reservation.hotel_id target)
                          (Reservation.hotel_file w));
                 Reservation.customer_file :=
                   Reservation.customer_file w |})).
Proof.
  destruct (load_json_cases (Reservation.file_path w))
    as [[records Hr] | [e He]].
  2: { left. exists (Exc e). split; [|eauto].
       unfold Reservation.cancel_reservation. unfold bind at 1.
       unfold Reservation.load_all.
       rewrite (zoom_load_json _ _ set_file_path_same), He. reflexivity. }
  destruct (find (Reservation.has_id i) records) as [target|] eqn:Ef.
  2: { left. exists (Val false). split; [|auto].
       unfold Reservation.cancel_reservation. unfold bind at 1.
       unfold Reservation.load_all.
       rewrite (zoom_load_json _ _ set_file_path_same), Hr, Ef.
       reflexivity. }
  destruct (load_json_cases (Reservation.hotel_file w))
    as [[hotels Hh] | [e He]].
  - right. exists records, target, hotels. repeat split; auto.
    exact (cancel_reservation_run _ _ _ _ _ Hr Ef Hh).
  - left. exists (Exc e). split; [|eauto].
    unfold Reservation.cancel_reservation. unfold bind at 1.
    unfold Reservation.load_all.
    rewrite (zoom_load_json _ _ set_file_path_same), Hr, Ef.
    unfold bind at 1. rewrite hotel_cancel_scan.
    rewrite (zoom_scan_and_save_raises _ _ set_hotel_file_same _ _ _ _ He).
    reflexivity.
Qed.

(** X20: no call of [create_reservation] or [cancel_reservation] writes
    the customer file, whatever the arguments and the outcome. *)
Theorem reservations_never_write_customers (c : reservation_call)
    (w : Reservation.World) :
  Reservation.customer_file (after_reservation c w)
  = Reservation.customer_file w.
Proof.
  unfold after_reservation, run_reservation.
  destruct c as [i cu h | i].
  - destruct (create_reservation_shapes i cu h w)
      as [(x & E & _) | (rs & hs & hs' & _ & _ & _ & _ & E)];
      rewrite E; reflexivity.
  - destruct (cancel_reservation_shapes i w)
      as [(x & E & _) | (rs & t & hs & _ & _ & _ & E)];
      rewrite E; reflexivity.
Qed.

(** X21: when [create_reservation] or [cancel_reservation] raises, no
    file has been written: the exception comes from loading the
    reservation, customer or hotel file, before the first write. *)
Theorem raising_reservation_call_writes_nothing (c : reservation_call)
    (w w' : Reservation.World) (e : exn) :
  run_reservation c w = (Some e, w') -> w' = w.
Proof.
  unfold run_reservation. destruct c as [i cu h | i].
  - destruct (create_reservation_shapes i cu h w)
      as [(x & E & _) | (rs & hs & hs' & _ & _ & _ & _ & E)];
      rewrite E; intros H; [congruence | discriminate].
  - destruct (cancel_reservation_shapes i w)
      as [(x & E & _) | (rs & t & hs & _ & _ & _ & E)];
      rewrite E; intros H; [congruence | discriminate].
Qed.

Lemma raising_reservation_call_writes_nothing_witness :
  let w := Reservation.set_hotel_file (Faulty UnicodeDecodeError)
             full_house in
  run_reservation (CancelReservationOf "R1") w = (Some UnicodeDecodeError, w)
  /\ w = w.
Proof.
  intros w. split; [reflexivity|].
  apply (raising_reservation_call_writes_nothing
           (CancelReservationOf "R1") w w UnicodeDecodeError).
  reflexivity.
Defined.

(** X22: a hotel file whose records all satisfy
    [0 <= rooms_available <= rooms] still has only such records after
    [create_reservation] or [cancel_reservation], whatever the arguments
    and the outcome. *)
Theorem reservations_keep_hotel_invariant (c : reservation_call)
    (w : Reservation.World) :
  store_ok (Reservation.hotel_file w) ->
  store_ok (Reservation.hotel_file (after_reservation c w)).
Proof.
  intros Hok. unfold after_reservation, run_reservation.
  destruct c as [i cu h | i].
  - destruct (create_reservation_shapes i cu h w)
      as [(x & E & _) | (rs & hs & hs' & _ & Hh & _ & Ef & E)];
      rewrite E; simpl; [exact Hok|].
    apply store_ok_stored.
    exact (for_first_Forall _ _ _ _ _ reserve_body_ok
             (store_ok_loads _ _ Hok Hh) Ef).
  - destruct (cancel_reservation_shapes i w)
      as [(x & E & _) | (rs & t & hs & _ & _ & _ & E)];
      rewrite E; simpl; [exact Hok|].
    rewrite hotel_cancel_scan.
    apply scan_and_save_ok; [apply cancel_body_ok | exact Hok].
Qed.

Lemma reservations_keep_hotel_invariant_witness :
  let w := Reservation.set_file_path Missing full_house in
  store_ok (Reservation.hotel_file w)
  /\ store_ok (Reservation.hotel_file
                 (after_reservation (CreateReservation "R1" "C1" "H1") w)).
Proof.
  intros w.
  assert (H : store_ok (Reservation.hotel_file w)).
  { apply store_ok_stored. constructor; [|constructor].
    unfold hotel_ok. simpl. lia. }
  split; [exact H|].
  apply (reservations_keep_hotel_invariant _ _ H).
Defined.

(** X23: a world in which no two reservations share a [reservation_id]
    and no two hotels share a [hotel_id] is still such a world after
    [create_reservation] or [cancel_reservation]. *)
Theorem reservation_ids_stay_unique (c : reservation_call)
    (w : Reservation.World) :
  unique Reservation.reservation_id (Reservation.file_path w) ->
  unique Hotel.hotel_id (Reservation.hotel_file w) ->
  unique Reservation.reservation_id
    (Reservation.file_path (after_reservation c w))
  /\ unique Hotel.hotel_id (Reservation.hotel_file (after_reservation c w)).
Proof.
  intros Hr Hh. unfold after_reservation, run_reservation.
  destruct c as [i cu h | i].
  - destruct (create_reservation_shapes i cu h w)
      as [(x & E & _) | (rs & hs & hs' & Hlr & Hlh & Hex & Ef & E)];
      rewrite E; simpl; [split; assumption|]. split.
    + apply unique_stored.
      apply (unique_after_append Reservation.reservation_id i
               (Reservation.has_id i));
        [reflexivity | exact (unique_loads _ _ _ Hr Hlr) | exact Hex
        | reflexivity].
    + apply unique_stored.
      rewrite (for_first_map Hotel.hotel_id _ _ _ _
                 hotel_reserve_keeps_id Ef).
      exact (unique_loads _ _ _ Hh Hlh).
  - destruct (cancel_reservation_shapes i w)
      as [(x & E & _) | (rs & t & hs & Hlr & _ & _ & E)];
      rewrite E; simpl; [split; assumption|]. split.
    + apply unique_stored. unfold without. apply unique_after_filter.
      exact (unique_loads _ _ _ Hr Hlr).
    + rewrite hotel_cancel_scan.
      apply scan_and_save_unique; [apply hotel_cancel_keeps_id | exact Hh].
Qed.

Lemma reservation_ids_stay_unique_witness :
  unique Reservation.reservation_id
    (Reservation.file_path
       (after_reservation (CreateReservation "R2" "C1" "H1") full_house))
  /\ unique Hotel.hotel_id
       (Reservation.hotel_file
          (after_reservation (CreateReservation "R2" "C1" "H1") full_house)).
Proof.
  apply (reservation_ids_stay_unique (CreateReservation "R2" "C1" "H1")
           full_house).
  - apply unique_stored. simpl. constructor; [intros [] | constructor].
  - apply unique_stored. simpl. constructor; [intros [] | constructor].
Defined.

(** X24: on a reservation file that loads, [cancel_reservation] of an id
    no record has returns [False] and writes none of the three files,
    without loading the hotel file at all. *)
Theorem cancel_unknown_reservation (i : string) (w : Reservation.World)
    (records : list Reservation.record) :
  loads (Reservation.file_path w) records ->
  existsb (Reservation.has_id i) records = false ->
  Reservation.cancel_reservation i w = (Val false, w).
Proof.
  intros Hr Hex. apply find_none_existsb in Hex.
  unfold Reservation.cancel_reservation. unfold bind at 1.
  unfold Reservation.load_all.
  rewrite (zoom_load_json _ _ set_file_path_same), Hr, Hex. reflexivity.
Qed.

Lemma cancel_unknown_reservation_witness :
  let w := Reservation.set_hotel_file (Faulty UnicodeDecodeError)
             full_house in
  Reservation.cancel_reservation "R9" w = (Val false, w).
Proof.
  intros w. apply (cancel_unknown_reservation "R9" w [r1]); reflexivity.
Defined.

Lemma reserve_updates_first (h : string) (hotels hotels' : list Hotel.record) :
  for_first (Hotel.has_id h) Hotel.reserve_body hotels = Updated hotels' ->
  exists pre r post,
    hotels = pre ++ r :: post
    /\ existsb (Hotel.has_id h) pre = false
    /\ Hotel.has_id h r = true
    /\ 0 < Hotel.rooms_available r
    /\ hotels'
       = pre ++ Hotel.set_available (Hotel.rooms_available r - 1) r :: post.
Proof.
  intros Ef.
  destruct (existsb (Hotel.has_id h) hotels) eqn:Ex.
  2: { rewrite (for_first_not_found _ _ _ Ex) in Ef. discriminate. }
  destruct (existsb_find _ _ Ex) as [r Hfind].
  destruct (find_split _ _ _ Hfind) as (pre & post & -> & Hpre & Hm).
  rewrite (for_first_at _ _ _ _ _ Hpre Hm) in Ef.
  unfold Hotel.reserve_body in Ef.
  destruct (Hotel.rooms_available r <=? 0) eqn:Ea; [discriminate|].
  apply Z.leb_gt in Ea. injection Ef as <-.
  exists pre, r, post. auto.
Qed.

(** X25: cancelling a reservation right after the [create_reservation]
    that returned it undoes the booking, provided the hotel had no more
    rooms available than it has rooms: the call returns [True], the hotel
    file and the customer file are what they were before the create, and
    the reservation file holds the records it held before. *)
Theorem create_then_cancel_restores (i c h : string)
    (w : Reservation.World) (records : list Reservation.record)
    (hotels : list Hotel.record) (r : Reservation.record) :
  loads (Reservation.file_path w) records ->
  loads (Reservation.hotel_file w) hotels ->
  (forall x, lookup (Hotel.has_id h) hotels = Some x ->
             Hotel.rooms_available x <= Hotel.rooms x) ->
  fst (Reservation.create_reservation i c h w) = Val (Some r) ->
  Reservation.cancel_reservation i
    (snd (Reservation.create_reservation i c h w))
  = (Val true,
     {| Reservation.file_path := Stored records;
        Reservation.hotel_file := Reservation.hotel_file w;
        Reservation.customer_file := Reservation.customer_file w |}).
Proof.
  intros Hr Hh Hcap.
  destruct (create_reservation_shapes i c h w)
    as [(x & E & [-> | [e ->]]) | (rs & hs & hs' & Hr' & Hh' & Hex & Ef & E)];
    rewrite E; simpl; try discriminate.
  intros _.
  assert (rs = records) by (unfold loads in *; congruence).
  assert (hs = hotels) by (unfold loads in *; congruence).
  subst rs hs.
  destruct (reserve_updates_first _ _ _ Ef)
    as (pre & x & post & -> & Hpre & Hm & Hpos & ->).
  assert (Hfile : Reservation.hotel_file w = Stored (pre ++ x :: post)).
  { destruct pre; exact (loads_stored _ _ _ Hh). }
  set (resv := {| Reservation.reservation_id := i;
                  Reservation.customer_id := c;
                  Reservation.hotel_id := h |}).
  assert (Hresv : Reservation.has_id i resv = true)
    by apply String.eqb_refl.
  rewrite (cancel_reservation_run i _ (records ++ [resv]) resv
             (pre ++ Hotel.set_available (Hotel.rooms_available x - 1) x
                  :: post));
    [| reflexivity
     | exact (find_after_append _ _ _ Hex Hresv)
     | reflexivity].
  simpl. unfold without. rewrite (filter_out_appended _ _ _ Hex Hresv).
  rewrite hotel_cancel_scan.
  rewrite (scan_and_save_run _ _ _ _ (loads_of_stored _)).
  rewrite (for_first_at _ _ _ _ (Hotel.set_available _ x) Hpre Hm).
  unfold Hotel.cancel_body. simpl Hotel.rooms. simpl Hotel.rooms_available.
  pose proof (Hcap x (find_at_first _ _ _ _ Hpre Hm)) as Hle.
  destruct (Hotel.rooms x <=? Hotel.rooms_available x - 1) eqn:Ec.
  - apply Z.leb_le in Ec. lia.
  - simpl. rewrite set_available_twice, set_available_same, Hfile;
      [reflexivity | lia].
Qed.

Lemma create_then_cancel_restores_witness :
  let w := Reservation.set_file_path (Stored []) full_house in
  Reservation.cancel_reservation "R1"
    (snd (Reservation.create_reservation "R1" "C1" "H1" w))
  = (Val true,
     {| Reservation.file_path := Stored [];
        Reservation.hotel_file := Stored [grand];
        Reservation.customer_file := Stored [ana] |}).
Proof.
  intros w.
  apply (create_then_cancel_restores "R1" "C1" "H1" w [] [grand] r1).
  - reflexivity.
  - reflexivity.
  - intros x Hx. vm_compute in Hx. injection Hx as <-. simpl. lia.
  - reflexivity.
Defined.

(** ** Reservations and taken rooms *)

Lemma find_in_pieces {R : Type} (q : R -> bool) (pre post : list R) (r : R) :
  find q (pre ++ r :: post)
  = match find q pre with
    | Some x => Some x
    | None => if q r then Some r else find q post
    end.
Proof.
  induction pre as [|x pre IH]; simpl; [reflexivity|].
  destruct (q x); [reflexivity | exact IH].
Qed.

Lemma has_id_same (a b : string) (r : Hotel.record) :
  Hotel.has_id a r = true -> Hotel.has_id b r = true -> a = b.
Proof.
  unfold Hotel.has_id. intros Ha Hb.
  apply String.eqb_eq in Ha, Hb. congruence.
Qed.

Lemma booked_append (t : string) (records : list Reservation.record)
    (r : Reservation.record) :
  booked t (records ++ [r])
  = (booked t records
     + if String.eqb (Reservation.hotel_id r) t then 1 else 0)%nat.
Proof.
  unfold booked. rewrite filter_app, length_app. simpl.
  destruct (String.eqb (Reservation.hotel_id r) t); reflexivity.
Qed.

Lemma booked_cons (t : string) (x : Reservation.record)
    (l : list Reservation.record) :
  booked t (x :: l)
  = ((if String.eqb (Reservation.hotel_id x) t then 1 else 0)
     + booked t l)%nat.
Proof.
  unfold booked. simpl.
  destruct (String.eqb (Reservation.hotel_id x) t); reflexivity.
Qed.

Lemma without_cons (i : string) (x : Reservation.record)
    (l : list Reservation.record) :
  without i (x :: l)
  = if Reservation.has_id i x then without i l else x :: without i l.
Proof.
  unfold without. simpl. destruct (Reservation.has_id i x); reflexivity.
Qed.

Lemma booked_without_le (t i : string) (records : list Reservation.record) :
  (booked t (without i records) <= booked t records)%nat.
Proof.
  induction records as [|x l IH]; [reflexivity|].
  rewrite without_cons, (booked_cons t x l).
  destruct (Reservation.has_id i x); [|rewrite booked_cons]; lia.
Qed.

Lemma booked_without_target (i : string)
    (records : list Reservation.record) (target : Reservation.record) :
  find (Reservation.has_id i) records = Some target ->
  (booked (Reservation.hotel_id target) (without i records)
   < booked (Reservation.hotel_id target) records)%nat.
Proof.
  induction records as [|x l IH]; simpl find; [discriminate|].
  rewrite without_cons, booked_cons.
  destruct (Reservation.has_id i x) eqn:Hx.
  - intros H. injection H as <-.
    pose proof (booked_without_le (Reservation.hotel_id x) i l) as Hle.
    rewrite String.eqb_refl. lia.
  - intros H. specialize (IH H). rewrite booked_cons. lia.
Qed.


Lemma loads_stored_eq {R : Type} (l records : list R) :
  loads (Stored l) records -> records = l.
Proof. unfold loads. simpl. congruence. Qed.

(** X26: the number of reservations on file for a hotel never exceeds
    its taken rooms, as long as the files are written through the
    Reservation store: this holds when no reservation is on file and the
    hotel records have [rooms_available <= rooms], and
    [create_reservation] and [cancel_reservation] keep it, whatever their
    arguments and outcome. *)
Theorem bookings_within_taken_rooms :
  (forall w,
     loads (Reservation.file_path w) [] ->
     store_ok (Reservation.hotel_file w) -> booking_ok w)
  /\ (forall c w, booking_ok w -> booking_ok (after_reservation c w)).
Proof.
  split.
  - intros w Hr Hok records hotels t h Hr' Hh Hfind.
    assert (records = []) by (unfold loads in *; congruence). subst records.
    pose proof (store_ok_loads _ _ Hok Hh) as Hall.
    rewrite Forall_forall in Hall.
    destruct (Hall h (proj1 (find_some _ _ Hfind))) as [_ Hle].
    unfold occupied, booked. simpl. lia.
  - intros c w Hok. unfold after_reservation, run_reservation.
    destruct c as [i cu h | i].
    + destruct (create_reservation_shapes i cu h w)
        as [(x & E & _) | (rs & hs & hs' & Hr & Hh & Hex & Ef & E)];
        rewrite E; simpl; [exact Hok|].
      destruct (reserve_updates_first _ _ _ Ef)
        as (pre & x & post & -> & Hpre & Hm & Hpos & ->).
      intros records hotels t y Hr' Hh' Hfind. simpl in Hr', Hh'.
      apply loads_stored_eq in Hr', Hh'. subst records hotels.
      rewrite booked_append. simpl Reservation.hotel_id.
      unfold lookup in Hfind. rewrite find_in_pieces in Hfind.
      assert (Hold : forall z,
                find (Hotel.has_id t) (pre ++ x :: post) = Some z ->
                Z.of_nat (booked t rs) <= occupied z)
        by (intros z Hz; exact (Hok rs _ t z Hr Hh Hz)).
      rewrite find_in_pieces in Hold.
      destruct (find (Hotel.has_id t) pre) as [z|] eqn:Fp.
      * injection Hfind as <-.
        assert (Hne : String.eqb h t = false).
        { destruct (String.eqb h t) eqn:Et; [|reflexivity].
          apply String.eqb_eq in Et. subst t.
          apply find_none_existsb in Hpre. congruence. }
        rewrite Hne. specialize (Hold z eq_refl). lia.
      * change (Hotel.has_id t (Hotel.set_available
                                  (Hotel.rooms_available x - 1) x))
          with (Hotel.has_id t x) in Hfind.
        destruct (Hotel.has_id t x) eqn:Ht.
        -- injection Hfind as <-.
           specialize (Hold x eq_refl).
           unfold occupied in *. simpl.
           destruct (String.eqb h t); lia.
        -- assert (Hne : String.eqb h t = false).
           { destruct (String.eqb h t) eqn:Et; [|reflexivity].
             apply String.eqb_eq in Et. subst t. congruence. }
           rewrite Hne. specialize (Hold y Hfind). lia.
    + destruct (cancel_reservation_shapes i w)
        as [(x & E & _) | (rs & target & hs & Hr & Hf & Hh & E)];
        rewrite E; simpl; [exact Hok|].
      intros records hotels t y Hr' Hh' Hfind. simpl in Hr', Hh'.
      apply loads_stored_eq in Hr'. subst records.
      pose proof (booked_without_le t i rs) as Hle.
      rewrite hotel_cancel_scan, (scan_and_save_run _ _ _ _ Hh) in Hh'.
      destruct (existsb (Hotel.has_id (Reservation.hotel_id target)) hs)
        eqn:Ex.
      2: { rewrite (for_first_not_found _ _ _ Ex) in Hh'. simpl in Hh'.
           assert (hotels = hs) by (unfold loads in *; congruence).
           subst hotels. pose proof (Hok rs hs t y Hr Hh Hfind). lia. }
      destruct (existsb_find _ _ Ex) as [x Hx].
      destruct (find_split _ _ _ Hx) as (pre & post & -> & Hpre & Hm).
      rewrite (for_first_at _ _ _ _ _ Hpre Hm) in Hh'.
      unfold Hotel.cancel_body in Hh'.
      destruct (Hotel.rooms x <=? Hotel.rooms_available x) eqn:Ec;
        simpl in Hh'.
      { assert (hotels = pre ++ x :: post)
          by (unfold loads in *; congruence).
        subst hotels. pose proof (Hok rs _ t y Hr Hh Hfind). lia. }
      apply loads_stored_eq in Hh'. subst hotels.
      assert (Hold : forall z,
                find (Hotel.has_id t) (pre ++ x :: post) = Some z ->
                Z.of_nat (booked t rs) <= occupied z)
        by (intros z Hz; exact (Hok rs _ t z Hr Hh Hz)).
      unfold lookup in Hfind. rewrite find_in_pieces in Hfind, Hold.
      destruct (find (Hotel.has_id t) pre) as [z|] eqn:Fp.
      * injection Hfind as <-. specialize (Hold z eq_refl). lia.
      * change (Hotel.has_id t (Hotel.set_available
                                  (Hotel.rooms_available x + 1) x))
          with (Hotel.has_id t x) in Hfind.
        destruct (Hotel.has_id t x) eqn:Ht.
        -- injection Hfind as <-. specialize (Hold x eq_refl).
           assert (t = Reservation.hotel_id target)
             by exact (has_id_same _ _ _ Ht Hm).
           subst t.
           pose proof (booked_without_target _ _ _ Hf) as Hlt.
           unfold occupied in *. simpl. lia.
        -- specialize (Hold y Hfind). lia.
Qed.

Lemma bookings_within_taken_rooms_witness :
  booking_ok (Reservation.set_file_path Missing full_house)
  /\ booking_ok
       (after_reservation (CreateReservation "R1" "C1" "H1")
          (Reservation.set_file_path Missing full_house)).
Proof.
  assert (H : booking_ok (Reservation.set_file_path Missing full_house)).
  { apply (proj1 bookings_within_taken_rooms).
    - reflexivity.
    - apply store_ok_stored. constructor; [|constructor].
      unfold hotel_ok. simpl. lia. }
  split; [exact H|].
  apply (proj2 bookings_within_taken_rooms _ _ H).
Defined.



(** X28: after [delete_hotel] on a file that loads, [display_hotel] of
    the same id returns [None], whether the delete found the id or not,
    and writes nothing; the same holds of [delete_customer] and
    [display_customer]. *)
Theorem deleted_is_not_found :
  (forall i f records,
     loads f records ->
     Hotel.display_hotel i (snd (Hotel.delete_hotel i f))
     = (Val None, snd (Hotel.delete_hotel i f)))
  /\ (forall i f records,
        loads f records ->
        Customer.display_customer i (snd (Customer.delete_customer i f))
        = (Val None, snd (Customer.delete_customer i f))).
Proof.
  split; intros i f records Hl.
  - rewrite (delete_hotel_by_presence _ _ _ Hl).
    unfold Hotel.display_hotel, bind, Hotel.load_all.
    destruct (existsb (Hotel.has_id i) records) eqn:Ex; simpl.
    + rewrite (proj2 (find_none_existsb _ _) (existsb_filter_out _ _)).
      reflexivity.
    + rewrite (loads_run _ _ Hl).
      rewrite (proj2 (find_none_existsb _ _) Ex). reflexivity.
  - rewrite (delete_customer_run _ _ _ Hl).
    unfold Customer.display_customer, bind, Customer.load_all.
    destruct (existsb (Customer.has_id i) records) eqn:Ex; simpl.
    + rewrite (proj2 (find_none_existsb _ _) (existsb_filter_out _ _)).
      reflexivity.
    + rewrite (loads_run _ _ Hl).
      rewrite (proj2 (find_none_existsb _ _) Ex). reflexivity.
Qed.

Lemma deleted_is_not_found_witness :
  Hotel.display_hotel "H1" (snd (Hotel.delete_hotel "H1" (Stored [grand])))
  = (Val None, snd (Hotel.delete_hotel "H1" (Stored [grand]))).
Proof.
  apply (proj1 deleted_is_not_found "H1" (Stored [grand]) [grand]).
  reflexivity.
Defined.
